(** * infraeng-interview: the JSON filter/post pipeline and the refresh trigger

    A shallow embedding of [coding/json_validator.py] and of
    [terraform/modules/autoscaling/refresh_lambda.py].

    Python objects are an inductive type [value]; a [dict] is an association
    list in insertion order, whose keys Python keeps pairwise distinct.
    Exceptions are an inductive type [exn] and a computation that may raise
    has type [result A].  Calls that leave the process (the file system, the
    HTTP transport, the cloud SDK) are answered by a [World] record of
    oracles, and the calls a function makes are recorded in a trace.
    Logging calls return [None], never change control flow, and are left
    out.  The exceptions are the subclasses of [Exception]; an interrupt
    from the keyboard or a [SystemExit], which are no failures and which no
    handler of the program names, are outside the model; so is
    [parse_args], which runs before the [try] of [main] and leaves the
    process through argparse's [SystemExit] on a bad command line. *)

From Stdlib Require Import ZArith Strings.Ascii Floats.SpecFloat.
From stdpp Require Import base option list strings sorting gmap.

Open Scope Z_scope.
Set Warnings "-register-all".
Set Default Proof Using "Type".

(** ** Python objects *)

Module Py.

(** What [json.loads] can build, which is also what the SDK hands back:
    [int] is unbounded, [float] is an IEEE-754 double ([json] does produce
    [NaN] and the infinities), [str] is a sequence of UTF-8 bytes, whose
    byte-wise order is the code-point order Python compares by. *)
Inductive value : Type :=
| PyNone
| PyBool (b : bool)
| PyInt (n : Z)
| PyFloat (f : spec_float)
| PyStr (s : string)
| PyList (l : list value)
| PyDict (d : list (string * value)).

Abbreviation dict := (list (string * value)).

(** [d.get(key)], with [None] of [option] standing for "no such key". *)
Fixpoint dict_lookup (key : string) (d : dict) : option value :=
  match d with
  | [] => None
  | (k, v) :: d' => if decide (k = key) then Some v else dict_lookup key d'
  end.

(** [d.get(key, default)] *)
Definition dict_get (key : string) (dflt : value) (d : dict) : value :=
  default dflt (dict_lookup key d).

(** [d[key] = v]: an existing key keeps its position, a new one goes last. *)
Fixpoint dict_setitem (key : string) (v : value) (d : dict) : dict :=
  match d with
  | [] => [(key, v)]
  | (k, v') :: d' =>
      if decide (k = key) then (k, v) :: d' else (k, v') :: dict_setitem key v d'
  end.

(** [{k: v for k, v in items}] *)
Definition dict_comprehension (items : dict) : dict :=
  fold_left (λ acc kv, dict_setitem kv.1 kv.2 acc) items [].

Definition float_is_zero (f : spec_float) : bool :=
  match f with S754_zero _ => true | _ => false end.

(** [bool(v)], the truth value [not], [or] and [if] test. *)
Definition truthy (v : value) : bool :=
  match v with
  | PyNone => false
  | PyBool b => b
  | PyInt n => negb (n =? 0)
  | PyFloat f => negb (float_is_zero f)
  | PyStr s => negb (bool_decide (s = ""))
  | PyList l => negb (bool_decide (length l = 0%nat))
  | PyDict d => negb (bool_decide (length d = 0%nat))
  end.

(** [a or b] *)
Definition py_or (a b : value) : value := if truthy a then a else b.

(** [v is True] *)
Definition is_True (v : value) : bool :=
  match v with PyBool true => true | _ => false end.

(** [s.rstrip(chars)]: drops every trailing character that occurs in
    [chars]. *)
Definition in_chars (c : Ascii.ascii) (chars : string) : bool :=
  bool_decide (c ∈ String.list_ascii_of_string chars).

Fixpoint rstrip (chars : string) (s : string) : string :=
  match s with
  | EmptyString => EmptyString
  | String c s' =>
      match rstrip chars s' with
      | EmptyString => if in_chars c chars then EmptyString else String c EmptyString
      | r => String c r
      end
  end.

(** *** Exceptions *)

Inductive exn : Type :=
| FileNotFoundError (msg : string)
| PermissionError (msg : string)
| IsADirectoryError (msg : string)
| UnicodeDecodeError (msg : string)
| JSONDecodeError (msg : string)
(* requests.exceptions: ConnectionError, Timeout, HTTPError, ... *)
| RequestException (subclass msg : string)
(* the three classes json_validator.py declares *)
| InputError (msg : string)
| ValidationError (msg : string)
| HTTPRequestError (msg : string)
(* botocore.exceptions.ClientError, with its [response] attribute *)
| ClientError (msg : string) (response : dict)
| AttributeError (msg : string)
(* any other subclass of [Exception] *)
| OtherException (cls msg : string).

(** [str(e)] *)
Definition str (e : exn) : string :=
  match e with
  | FileNotFoundError m | PermissionError m | IsADirectoryError m
  | UnicodeDecodeError m | JSONDecodeError m | RequestException _ m
  | InputError m | ValidationError m | HTTPRequestError m
  | ClientError m _ | AttributeError m | OtherException _ m => m
  end.

Inductive result (A : Type) : Type :=
| Return (a : A)
| Raise (e : exn).
Arguments Return {A} a.
Arguments Raise {A} e.

(** [receiver.get(key, default)] on an object of any class: only a [dict]
    has the method. *)
Definition get_method (receiver : value) (key : string) (dflt : value)
    : result value :=
  match receiver with
  | PyDict d => Return (dict_get key dflt d)
  | _ => Raise (AttributeError "object has no attribute 'get'")
  end.

(** A computation with a trace of the outside calls it made. *)
Definition io (E A : Type) : Type := (list E * result A)%type.

Definition raise {E A} (e : exn) : io E A := ([], Raise e).
Definition lift {E A} (r : result A) : io E A := ([], r).
Definition emit {E} (ev : E) : io E unit := ([ev], Return tt).

Definition io_bind {E A B} (f : A → io E B) (m : io E A) : io E B :=
  match m with
  | (t, Return a) => let '(t', r) := f a in (t ++ t', r)
  | (t, Raise e) => (t, Raise e)
  end.

#[global] Instance io_ret E : MRet (io E) := λ A a, ([], Return a).
#[global] Instance io_mbind E : MBind (io E) := λ A B, io_bind.

(** [try: m  except ...: handler]; a handler re-raises what no clause of it
    matches. *)
Definition try_except {E A} (m : io E A) (handler : exn → io E A) : io E A :=
  match m with
  | (t, Raise e) => let '(t', r) := handler e in (t ++ t', r)
  | done => done
  end.

(** [for x in xs: body(x)] *)
Fixpoint for_each {E A} (xs : list A) (body : A → io E unit) : io E unit :=
  match xs with
  | [] => mret tt
  | x :: xs' => body x;; for_each xs' body
  end.

(** The same for code that makes no outside call. *)
#[global] Instance result_ret : MRet result := λ A a, Return a.
#[global] Instance result_mbind : MBind result := λ A B f r,
  match r with Return a => f a | Raise e => Raise e end.

Definition rtry {A} (r : result A) (handler : exn → result A) : result A :=
  match r with Raise e => handler e | done => done end.

End Py.

Export Py.

(** ** coding/json_validator.py *)

Module json_validator.

(** What [requests.post] returns: the status line and what the [json()]
    method of the response gives on its body. *)
Record Response : Type := {
  status_code : Z;
  json : result value;
}.

Record World : Type := {
  (* sys.stdin.read() *)
  stdin_read : result string;
  (* open(path, "r", encoding="utf-8") and the read of the whole file *)
  open_read : string → result string;
  (* json.loads(text); json.load(f) is json.loads(f.read()) *)
  json_loads : string → result value;
  (* requests.post(url, json=, headers=, timeout=, verify=) *)
  requests_post :
    string → value → list (string * string) → Z → bool → result Response;
  (* print(line): writes the line and a line feed to standard output, or
     raises (UnicodeEncodeError for a line the encoding of standard output
     cannot write, OSError for a closed pipe) and writes nothing *)
  stdout_print : string → result unit;
}.

Inductive event : Type :=
| HttpPost (url : string) (payload : value) (headers : list (string * string))
    (timeout : Z) (verify : bool)
| Print (line : string).

(** [Response.raise_for_status()] of requests: an [HTTPError] for a 4xx or
    5xx status, nothing for any other.  The message, which in requests names
    the status and the address, is abbreviated. *)
Definition raise_for_status (resp : Response) : result unit :=
  if bool_decide (400 ≤ status_code resp < 600)
  then Raise (RequestException "HTTPError" "HTTP status error")
  else Return tt.

Definition load_json (w : World) (path : string) : result value :=
  rtry
    (if decide (path = "-")
     then text ← stdin_read w; json_loads w text
     else text ← open_read w path; json_loads w text)
    (λ e, match e with
          | FileNotFoundError _ => Raise (InputError (str e))
          | JSONDecodeError _ => Raise (InputError (str e))
          | _ => Raise e
          end).

(** [isinstance(item, dict) and not item.get("private", False)] *)
Definition is_public (item : value) : bool :=
  match item with
  | PyDict d => negb (truthy (dict_get "private" (PyBool false) d))
  | _ => false
  end.

Definition filter_public (data : value) : result value :=
  match data with
  | PyList l => Return (PyList (filter (λ item, is_public item) l))
  | PyDict d =>
      Return (PyDict (dict_comprehension (filter (λ kv, is_public kv.2) d)))
  | _ => Raise (ValidationError "unsupported top-level JSON type")
  end.

Definition is_RequestException (e : exn) : bool :=
  match e with RequestException _ _ => true | _ => false end.

Definition post_generate (w : World) (base_url : string) (payload : value)
    (verify : bool) (timeout : Z) : io event dict :=
  let url := (rstrip "/" base_url +:+ "/service/generate")%string in
  let headers := [("Content-Type", "application/json")] in
  resp ← try_except
    (emit (HttpPost url payload headers timeout verify);;
     resp ← lift (requests_post w url payload headers timeout verify);
     lift (raise_for_status resp);;
     mret resp)
    (λ e, if is_RequestException e then raise (HTTPRequestError (str e))
          else raise e);
  data ← try_except (lift (json resp))
    (λ e, match e with
          | JSONDecodeError _ => raise (HTTPRequestError "response not valid JSON")
          | _ => raise e
          end);
  match data with
  | PyDict d => mret d
  | _ => raise (HTTPRequestError "expected JSON map/object in response")
  end.

(** [isinstance(val, Mapping) and val.get("valid") is True] *)
Definition is_valid (val : value) : bool :=
  match val with
  | PyDict d => is_True (dict_get "valid" PyNone d)
  | _ => false
  end.

(** [list.sort()] on strings: the ascending order of [<=] on [str].  The
    order is total and antisymmetric, so the sorted list is unique and the
    choice of algorithm does not show. *)
Definition sort (l : list string) : list string := merge_sort String.le l.

Definition extract_valid_keys (response_map : dict) : list string :=
  let valid_keys :=
    fold_left (λ keys kv, if is_valid kv.2 then keys ++ [kv.1] else keys)
      response_map [] in
  sort valid_keys.

(** The namespace [parse_args] has built from the command line. *)
Record Args : Type := {
  input : string;
  url : string;
  insecure : bool;
  timeout : Z;
}.

(** [print(k)]: the call is in the trace when it has returned. *)
Definition print (w : World) (k : string) : io event unit :=
  lift (stdout_print w k);; emit (Print k).

(** [main] from its [try] on, [args] being what [parse_args(argv)] has
    returned. *)
Definition main (w : World) (args : Args) : io event Z :=
  try_except
    (raw ← lift (load_json w (input args));
     payload ← lift (filter_public raw);
     resp_map ← post_generate w (url args) payload (negb (insecure args))
                  (timeout args);
     let valid_keys := extract_valid_keys resp_map in
     for_each valid_keys (λ k, print w k);;
     mret 0)
    (λ e, match e with
          | InputError _ | ValidationError _ | HTTPRequestError _ => mret 2
          | _ => mret 1
          end).

End json_validator.

(** ** terraform/modules/autoscaling/refresh_lambda.py *)

Module refresh_lambda.

(** A client object, as far as the program can tell two of them apart. *)
Record client : Type := {
  service_name : string;
  client_kwargs : dict;
}.

Record World : Type := {
  (* os.environ *)
  environ : gmap string string;
  (* boto3.client(service, region_name=...): builds the client or raises *)
  boto3_client : string → dict → result unit;
  (* client.start_instance_refresh with its keyword arguments *)
  start_instance_refresh : client → dict → result dict;
}.

Inductive call : Type :=
| Boto3Client (service : string) (kwargs : dict)
| StartInstanceRefresh (c : client) (kwargs : dict).

(** [os.environ.get(name)] *)
Definition environ_get (w : World) (name : string) : value :=
  match environ w !! name with
  | Some s => PyStr s
  | None => PyNone
  end.

(** The two [except] clauses of [lambda_handler]: the one for
    [botocore.exceptions.ClientError], which reads
    [e.response.get("Error", {}).get("Code")], and the one for
    [Exception]. *)
Definition except_clauses (e : exn) : io call value :=
  match e with
  | ClientError _ response =>
      code ← lift (error ← get_method (PyDict response) "Error" (PyDict []);
                   get_method error "Code" PyNone);
      mret (PyDict [("status", PyStr "error");
                    ("message", PyStr (str e));
                    ("code", code)])
  | _ =>
      mret (PyDict [("status", PyStr "error");
                    ("message", PyStr (str e))])
  end.

Definition lambda_handler (w : World) (event context : value)
    : io call value :=
  let asg := environ_get w "ASG_NAME" in
  if negb (truthy asg) then
    mret (PyDict [("status", PyStr "error");
                  ("message", PyStr "ASG_NAME not set")])
  else
    let region := environ_get w "AWS_REGION" in
    try_except
      (let client_kwargs :=
         if truthy region then dict_setitem "region_name" region [] else [] in
       emit (Boto3Client "autoscaling" client_kwargs);;
       lift (boto3_client w "autoscaling" client_kwargs);;
       let client :=
         {| service_name := "autoscaling"; client_kwargs := client_kwargs |} in
       let kwargs :=
         [("AutoScalingGroupName", asg);
          ("Strategy", PyStr "Rolling");
          ("Preferences", PyDict [("MinHealthyPercentage", PyInt 90);
                                  ("InstanceWarmup", PyInt 300)])] in
       emit (StartInstanceRefresh client kwargs);;
       resp ← lift (start_instance_refresh w client kwargs);
       let instance_refresh_id :=
         py_or (dict_get "InstanceRefreshId" PyNone resp)
               (dict_get "InstanceRefreshId" (PyStr "unknown") resp) in
       mret (PyDict [("status", PyStr "started");
                     ("instance_refresh_id", instance_refresh_id);
                     ("raw_response", PyDict resp)]))
      except_clauses.

(** botocore builds a [ClientError] by reading [response.get("Error", {})]
    with [.get], so in every [ClientError] that exists the ["Error"] entry
    of [response] is a dict or is missing. *)
Definition ClientError_built (e : exn) : Prop :=
  match e with
  | ClientError _ response =>
      ∃ error, dict_get "Error" (PyDict []) response = PyDict error
  | _ => True
  end.

Definition sdk_exceptions_built (w : World) : Prop :=
  (∀ service kwargs e,
     boto3_client w service kwargs = Raise e → ClientError_built e) ∧
  (∀ c kwargs e,
     start_instance_refresh w c kwargs = Raise e → ClientError_built e).

End refresh_lambda.

(** ** The words of the specification *)

Module Spec.

(** "a keyed mapping whose "private" entry is absent, or is not [flagged]":
    the specification reads [flagged] as "strictly true" ([is_True]); the
    program tests the truth value ([truthy]). *)
Definition private_absent_or_not (flagged : value → bool) (item : value)
    : bool :=
  match item with
  | PyDict d =>
      match dict_lookup "private" d with
      | None => true
      | Some v => negb (flagged v)
      end
  | _ => false
  end.

(** The same for the program's test, as a proposition. *)
Definition public_entry (item : value) : Prop :=
  ∃ d, item = PyDict d ∧
    (dict_lookup "private" d = None ∨
     ∃ v, dict_lookup "private" d = Some v ∧ truthy v = false).

(** "response[k] is a keyed mapping and response[k]["valid"] is exactly the
    boolean true" *)
Definition valid_key (response : dict) (k : string) : Prop :=
  ∃ d, dict_lookup k response = Some (PyDict d) ∧
       dict_lookup "valid" d = Some (PyBool true).

(** Strictly ascending: sorted and free of duplicates at once. *)
Definition str_lt (s1 s2 : string) : Prop := String.le s1 s2 ∧ s1 ≠ s2.

(** "removing the trailing path separator": what is left does not end in
    it. *)
Fixpoint ends_with (c : Ascii.ascii) (s : string) : bool :=
  match s with
  | EmptyString => false
  | String c' EmptyString => bool_decide (c' = c)
  | String _ s' => ends_with c s'
  end.

(** [n] path separators in a row *)
Fixpoint separators (n : nat) : string :=
  match n with
  | O => EmptyString
  | S n' => String "/"%char (separators n')
  end.

(** "Input error, Validation error, or HTTP error": the recognised pipeline
    failures. *)
Definition recognised (e : exn) : bool :=
  match e with
  | InputError _ | ValidationError _ | HTTPRequestError _ => true
  | _ => false
  end.

Section pipeline.
Import json_validator.

(** The source that [load_json] reads: standard input for "-", the file
    otherwise. *)
Definition read_source (w : World) (path : string) : result string :=
  if decide (path = "-") then stdin_read w else open_read w path.

(** "2 on any recognized pipeline failure; 1 on any unanticipated
    failure" *)
Definition exit_status (e : exn) : Z := if recognised e then 2 else 1.

(** The line feed, and the text that a trace leaves on standard output:
    each printed key followed by a line feed. *)
Definition LF : Ascii.ascii := "010"%char.

Fixpoint stdout_text (trace : list event) : string :=
  match trace with
  | [] => EmptyString
  | Print k :: trace' => (k +:+ String LF (stdout_text trace'))%string
  | HttpPost _ _ _ _ _ :: trace' => stdout_text trace'
  end.

(** The lines of a text: what stands between its line feeds ([cur] is the
    line begun so far). *)
Fixpoint lines_from (cur : string) (text : string) : list string :=
  match text with
  | EmptyString => if decide (cur = EmptyString) then [] else [cur]
  | String c text' =>
      if decide (c = LF) then cur :: lines_from EmptyString text'
      else lines_from (cur +:+ String c EmptyString)%string text'
  end.

Definition output_lines (text : string) : list string :=
  lines_from EmptyString text.

Fixpoint has_line_feed (s : string) : bool :=
  match s with
  | EmptyString => false
  | String c s' => bool_decide (c = LF) || has_line_feed s'
  end.

(** The print loop over [keys]: the keys printed before the first [print]
    that raises, and what that one raises. *)
Fixpoint print_run (w : World) (keys : list string)
    : list string * option exn :=
  match keys with
  | [] => ([], None)
  | k :: keys' =>
      match stdout_print w k with
      | Return _ =>
          let '(printed, failure) := print_run w keys' in
          (k :: printed, failure)
      | Raise e => ([], Some e)
      end
  end.

(** The pipeline of [main] fails with [e]: a stage raises it, the stages
    before it having returned, or a [print] of the loop does, the stages
    and the prints before it having returned. *)
Inductive pipeline_fails (w : World) (args : Args) (e : exn) : Prop :=
| load_fails :
    load_json w (input args) = Raise e → pipeline_fails w args e
| filter_fails raw :
    load_json w (input args) = Return raw →
    filter_public raw = Raise e → pipeline_fails w args e
| post_fails raw payload :
    load_json w (input args) = Return raw →
    filter_public raw = Return payload →
    (post_generate w (url args) payload (negb (insecure args))
       (timeout args)).2 = Raise e →
    pipeline_fails w args e
| print_fails raw payload resp_map :
    load_json w (input args) = Return raw →
    filter_public raw = Return payload →
    (post_generate w (url args) payload (negb (insecure args))
       (timeout args)).2 = Return resp_map →
    (print_run w (extract_valid_keys resp_map)).2 = Some e →
    pipeline_fails w args e.

(** The answer of the transport to the POST of [post_generate]. *)
Definition transport_answer (w : World) (base_url : string) (payload : value)
    (verify : bool) (timeout : Z) : result Response :=
  requests_post w (rstrip "/" base_url +:+ "/service/generate")%string
    payload [("Content-Type", "application/json")] timeout verify.

(** [HTTPRequestError] is a class of this program: no library raises it,
    neither [requests.post] nor [json()]. *)
Definition raises_no_HTTPRequestError (answer : result Response) : Prop :=
  (∀ msg, answer ≠ Raise (HTTPRequestError msg)) ∧
  (∀ resp msg, answer = Return resp →
               json resp ≠ Raise (HTTPRequestError msg)).

(** The ways a POST goes wrong that [post_generate] has a clause for: the
    request raises a [RequestException], the status is one that
    [raise_for_status] raises for, [json()] raises a [JSONDecodeError], or
    the parsed value is no dict. *)
Definition http_failure (answer : result Response) : Prop :=
  (∃ e, answer = Raise e ∧ is_RequestException e) ∨
  (∃ resp, answer = Return resp ∧
     (400 ≤ status_code resp < 600 ∨
      (∃ msg, json resp = Raise (JSONDecodeError msg)) ∨
      (∃ v, json resp = Return v ∧ ∀ d, v ≠ PyDict d))).

(** The answer is an exception that no clause of [post_generate] names:
    [post] raises something that is no [RequestException], or [json()] of an
    accepted response raises something that is no [JSONDecodeError]. *)
Definition foreign_failure (answer : result Response) (e : exn) : Prop :=
  (answer = Raise e ∧ is_RequestException e = false) ∨
  (∃ resp, answer = Return resp ∧ ¬ (400 ≤ status_code resp < 600) ∧
           json resp = Raise e ∧ ∀ msg, e ≠ JSONDecodeError msg).

End pipeline.

Section refresh.
Import refresh_lambda.

(** The keyword arguments [lambda_handler] builds the client with, the
    client, and the request it sends. *)
Definition client_kwargs_of (w : World) : dict :=
  if truthy (environ_get w "AWS_REGION")
  then [("region_name", environ_get w "AWS_REGION")]
  else [].

Definition client_of (w : World) : client :=
  {| service_name := "autoscaling"; client_kwargs := client_kwargs_of w |}.

Definition refresh_request (w : World) : dict :=
  [("AutoScalingGroupName", environ_get w "ASG_NAME");
   ("Strategy", PyStr "Rolling");
   ("Preferences", PyDict [("MinHealthyPercentage", PyInt 90);
                           ("InstanceWarmup", PyInt 300)])].

(** "the group-name environment variable ASG_NAME is unset or empty" *)
Definition group_unset (w : World) : Prop :=
  environ w !! "ASG_NAME" = None ∨ environ w !! "ASG_NAME" = Some "".

(** The refresh fails with [e]: building the client raises it, or the
    provider call does. *)
Inductive refresh_fails (w : World) (e : exn) : Prop :=
| client_fails :
    boto3_client w "autoscaling" (client_kwargs_of w) = Raise e →
    refresh_fails w e
| request_fails :
    boto3_client w "autoscaling" (client_kwargs_of w) = Return tt →
    start_instance_refresh w (client_of w) (refresh_request w) = Raise e →
    refresh_fails w e.

(** The provider error code of a [ClientError]: the "Code" entry of the
    "Error" entry of its response, [None] where there is none. *)
Definition provider_code (e : exn) : option value :=
  match e with
  | ClientError _ response =>
      match dict_lookup "Error" response with
      | Some (PyDict error) => Some (dict_get "Code" PyNone error)
      | _ => Some PyNone
      end
  | _ => None
  end.

Definition error_unset : value :=
  PyDict [("status", PyStr "error"); ("message", PyStr "ASG_NAME not set")].

End refresh.

End Spec.

(** ** Sample worlds *)

Module Examples.
Import json_validator.

(** A parser that knows two documents. *)
Definition loads_sample (text : string) : result value :=
  if decide (text = "42") then Return (PyInt 42)
  else if decide (text = "[]") then Return (PyList [])
  else Raise (JSONDecodeError "Expecting value: line 1 column 1 (char 0)").

Definition sample_world (files : string → result string)
    (answer : result Response) : World :=
  {| stdin_read := Return "[]";
     open_read := files;
     json_loads := loads_sample;
     requests_post := λ _ _ _ _ _, answer;
     stdout_print := λ _, Return tt |}.

Definition file_with (text : string) : string → result string :=
  λ _, Return text.

Definition no_file : string → result string :=
  λ path, Raise (FileNotFoundError "[Errno 2] No such file or directory").

Definition unreadable_file : string → result string :=
  λ path, Raise (PermissionError "[Errno 13] Permission denied").

Definition answer_ok : result Response :=
  Return {| status_code := 200;
            json := Return (PyDict [("k2", PyDict [("valid", PyBool true)]);
                                    ("k1", PyDict [("valid", PyBool true)]);
                                    ("k3", PyStr "notadict")]) |}.

(** 300 Multiple Choices, which requests does not follow, with a JSON
    object as body. *)
Definition answer_300 : result Response :=
  Return {| status_code := 300;
            json := Return (PyDict [("k1", PyDict [("valid", PyBool true)])]) |}.

Definition answer_503 : result Response :=
  Return {| status_code := 503; json := Return (PyDict []) |}.

Definition sample_args : Args :=
  {| input := "coding/example.json"; url := "https://example.com/";
     insecure := false; timeout := 10 |}.

(** The response of scenario 3. *)
Definition scenario_response : dict :=
  [("k1", PyDict [("valid", PyBool true)]);
   ("k2", PyDict [("valid", PyBool false)]);
   ("k3", PyStr "notadict")].

(** A dict flagged by a number: truthy, and not the boolean true. *)
Definition flagged_by_number : value := PyDict [("private", PyInt 1)].

Definition world_ok : World := sample_world (file_with "[]") answer_ok.
Definition world_number : World := sample_world (file_with "42") answer_ok.
Definition world_missing : World := sample_world no_file answer_ok.
Definition world_unreadable : World := sample_world unreadable_file answer_ok.
Definition world_300 : World := sample_world (file_with "[]") answer_300.
Definition world_503 : World := sample_world (file_with "[]") answer_503.

(** A response with a valid key that holds a line feed. *)
Definition key_of_two_lines : string :=
  String "a" (String "010" (String "b" EmptyString)).

Definition answer_two_lines : result Response :=
  Return {| status_code := 200;
            json := Return (PyDict [(key_of_two_lines,
                                     PyDict [("valid", PyBool true)])]) |}.

Definition world_two_lines : World :=
  sample_world (file_with "[]") answer_two_lines.

(** Standard output cannot write the key "k2". *)
Definition world_print_fails : World :=
  {| stdin_read := Return "[]";
     open_read := file_with "[]";
     json_loads := loads_sample;
     requests_post := λ _ _ _ _ _, answer_ok;
     stdout_print := λ k,
       if decide (k = "k2")
       then Raise (OtherException "UnicodeEncodeError"
                     "'ascii' codec can't encode character")
       else Return tt |}.

(** The provider side. *)
Definition sdk_world (env : gmap string string) (built : result unit)
    (answer : result dict) : refresh_lambda.World :=
  {| refresh_lambda.environ := env;
     refresh_lambda.boto3_client := λ _ _, built;
     refresh_lambda.start_instance_refresh := λ _ _, answer |}.

Definition env_group : gmap string string := {["ASG_NAME" := "web-asg"]}.

Definition access_denied : exn :=
  ClientError "An error occurred (AccessDenied) when calling the StartInstanceRefresh operation"
    [("Error", PyDict [("Code", PyStr "AccessDenied");
                       ("Message", PyStr "not authorized")])].

Definition answer_without_id : dict :=
  [("ResponseMetadata", PyDict [("HTTPStatusCode", PyInt 200)])].

Definition sdk_denied : refresh_lambda.World :=
  sdk_world env_group (Return tt) (Raise access_denied).

Definition sdk_without_id : refresh_lambda.World :=
  sdk_world env_group (Return tt) (Return answer_without_id).

End Examples.

(** ** Further properties: their vocabulary *)

Module Props.

Section pipeline.
Import json_validator Spec.

(** A dict at the top level has pairwise distinct keys, as every Python
    dict has. *)
Definition distinct_keys (data : value) : Prop :=
  match data with
  | PyDict d => NoDup d.*1
  | _ => True
  end.

Definition is_post (ev : event) : bool :=
  match ev with HttpPost _ _ _ _ _ => true | Print _ => false end.

(** Reading the source or parsing its text raises [e]. *)
Definition load_failure (w : World) (path : string) (e : exn) : Prop :=
  read_source w path = Raise e ∨
  ∃ text, read_source w path = Return text ∧ json_loads w text = Raise e.

Definition is_FileNotFound_or_JSONDecode (e : exn) : bool :=
  match e with
  | FileNotFoundError _ | JSONDecodeError _ => true
  | _ => false
  end.

(** The transport answers with an exception that [post_generate] has no
    clause for: [post] raises something that is no [RequestException], or
    [json()] of an accepted response raises something that is no
    [JSONDecodeError]. *)
Definition unexpected_answer (answer : result Response) (e : exn) : Prop :=
  (answer = Raise e ∧ is_RequestException e = false) ∨
  (∃ resp, answer = Return resp ∧ ¬ (400 ≤ status_code resp < 600) ∧
           json resp = Raise e ∧ ∀ msg, e ≠ JSONDecodeError msg).

(** Every stage of [main] returns, the last one with [resp_map]. *)
Definition stages_return (w : World) (args : Args) (resp_map : dict)
    : Prop :=
  ∃ raw payload,
    load_json w (input args) = Return raw ∧
    filter_public raw = Return payload ∧
    (post_generate w (url args) payload (negb (insecure args))
       (timeout args)).2 = Return resp_map.

(** Every stage returns and so does every [print] of the loop. *)
Definition pipeline_succeeds (w : World) (args : Args) (resp_map : dict)
    : Prop :=
  stages_return w args resp_map ∧
  (print_run w (extract_valid_keys resp_map)).2 = None.


End pipeline.

Section refresh.
Import refresh_lambda.

Definition is_request (c : call) : bool :=
  match c with StartInstanceRefresh _ _ => true | Boto3Client _ _ => false end.

(** The keyword arguments of a rolling refresh of the group [asg]. *)
Definition rolling_refresh_of (asg : string) : dict :=
  [("AutoScalingGroupName", PyStr asg);
   ("Strategy", PyStr "Rolling");
   ("Preferences", PyDict [("MinHealthyPercentage", PyInt 90);
                           ("InstanceWarmup", PyInt 300)])].

(** "AWS_REGION" is unset or empty. *)
Definition region_unset (w : World) : Prop :=
  environ w !! "AWS_REGION" = None ∨ environ w !! "AWS_REGION" = Some "".

End refresh.

End Props.

Module Samples.
Import json_validator Examples.

Definition mixed_payload : value :=
  PyDict [("x", PyDict [("v", PyInt 1)]);
          ("y", PyDict [("v", PyInt 2); ("private", PyBool true)]);
          ("z", PyStr "text")].

Definition scenario_response_reordered : dict :=
  [("k3", PyStr "notadict");
   ("k2", PyDict [("valid", PyBool false)]);
   ("k1", PyDict [("valid", PyBool true)])].

(** The transport fails with an exception of no class of requests. *)
Definition answer_type_error : result Response :=
  Raise (OtherException "TypeError" "Object of type set is not JSON serializable").

Definition world_type_error : World :=
  sample_world (file_with "[]") answer_type_error.

(** A world that differs from [world_ok] on standard input only. *)
Definition world_ok_other_stdin : World :=
  {| stdin_read := Return "42";
     open_read := file_with "[]";
     json_loads := loads_sample;
     requests_post := λ _ _ _ _ _, answer_ok;
     stdout_print := λ _, Return tt |}.

(** Scenario 1: the input file parses to a list with one private element. *)
Definition scenario_input : value :=
  PyList [PyDict [("a", PyInt 1)];
          PyDict [("a", PyInt 2); ("private", PyBool true)]].

Definition world_scenario : World :=
  {| stdin_read := Return "";
     open_read := file_with "scenario 1";
     json_loads := λ _, Return scenario_input;
     requests_post := λ _ _ _ _ _, answer_ok;
     stdout_print := λ _, Return tt |}.

Definition env_group_region : gmap string string :=
  {["ASG_NAME" := "web-asg"; "AWS_REGION" := "eu-west-1"]}.

(** A provider response whose identifier is the empty string. *)
Definition answer_with_empty_id : dict :=
  [("InstanceRefreshId", PyStr "")].

Definition answer_with_id : dict :=
  [("InstanceRefreshId", PyStr "08b91cf7-8fa6-48af-b6a6-d227f40f1b9b")].

Definition sdk_with_id : refresh_lambda.World :=
  sdk_world env_group_region (Return tt) (Return answer_with_id).

Definition sdk_with_empty_id : refresh_lambda.World :=
  sdk_world env_group (Return tt) (Return answer_with_empty_id).

End Samples.

Import json_validator Spec Examples.
Import Props Samples.

(** ** Dicts *)

Section dicts.
Implicit Types (d : dict) (k : string) (v : value).

Lemma dict_lookup_elem_of d k v : dict_lookup k d = Some v → (k, v) ∈ d.
Proof.
  induction d as [|[k' v'] d IH]; simpl; [done|].
  case_decide; intros ?; simplify_eq; [left | right; auto].
Qed.

Lemma dict_lookup_None d k : dict_lookup k d = None ↔ k ∉ d.*1.
Proof.
  induction d as [|[k' v'] d IH]; csimpl.
  - split; [intros _; apply not_elem_of_nil | done].
  - rewrite not_elem_of_cons. case_decide; subst.
    + split; [done | by intros [? _]].
    + rewrite IH. split; [intros ?; split; [congruence | done] | by intros [_ ?]].
Qed.

Lemma elem_of_dict_lookup d k v :
  NoDup d.*1 → (k, v) ∈ d → dict_lookup k d = Some v.
Proof.
  induction d as [|[k' v'] d IH]; csimpl; intros Hnd Hin.
  - by apply elem_of_nil in Hin.
  - apply NoDup_cons in Hnd as [Hk Hnd].
    apply elem_of_cons in Hin as [?|Hin]; simplify_eq.
    + by rewrite decide_True.
    + rewrite decide_False; [auto|].
      intros ->. apply Hk, list_elem_of_fmap. by exists (k, v).
Qed.

Lemma dict_lookup_iff d k v :
  NoDup d.*1 → dict_lookup k d = Some v ↔ (k, v) ∈ d.
Proof.
  split; [apply dict_lookup_elem_of | by apply elem_of_dict_lookup].
Qed.

Lemma dict_setitem_fresh d k v :
  k ∉ d.*1 → dict_setitem k v d = d ++ [(k, v)].
Proof.
  induction d as [|[k' v'] d IH]; csimpl; [done|].
  rewrite not_elem_of_cons. intros [? ?].
  rewrite decide_False by done. by rewrite IH.
Qed.

Lemma dict_comprehension_acc items acc :
  NoDup (acc ++ items).*1 →
  fold_left (λ acc kv, dict_setitem kv.1 kv.2 acc) items acc = acc ++ items.
Proof.
  revert acc. induction items as [|[k v] items IH]; intros acc Hnd; simpl.
  - by rewrite app_nil_r.
  - assert (acc ++ (k, v) :: items = (acc ++ [(k, v)]) ++ items) as Heq
      by (by rewrite <-app_assoc).
    rewrite Heq in Hnd |- *.
    rewrite <-IH by done. f_equal. apply dict_setitem_fresh.
    rewrite !fmap_app in Hnd.
    apply NoDup_app in Hnd as [Hnd _].
    apply NoDup_app in Hnd as (_ & Hfresh & _).
    intros Hin. apply (Hfresh k Hin). csimpl. left.
Qed.

(** A comprehension over items with distinct keys never overwrites. *)
Lemma dict_comprehension_NoDup items :
  NoDup items.*1 → dict_comprehension items = items.
Proof. intros. by apply (dict_comprehension_acc items []). Qed.

Lemma filter_keys_sublist (P : string * value → Prop)
    `{!∀ kv, Decision (P kv)} d :
  (filter P d).*1 `sublist_of` d.*1.
Proof. apply fmap_sublist, sublist_filter. Qed.

Lemma filter_keys_NoDup (P : string * value → Prop)
    `{!∀ kv, Decision (P kv)} d :
  NoDup d.*1 → NoDup (filter P d).*1.
Proof. intros Hnd. eapply sublist_NoDup; [done | apply filter_keys_sublist]. Qed.
End dicts.

(** ** The filter *)

Lemma is_public_spec item : is_public item = private_absent_or_not truthy item.
Proof.
  destruct item as [| | | | | |d]; simpl; try done.
  unfold dict_get. by destruct (dict_lookup "private" d).
Qed.

Lemma public_entry_spec item :
  public_entry item ↔ private_absent_or_not truthy item = true.
Proof.
  unfold public_entry. split.
  - intros (d & -> & [Hd | (v & Hd & Hv)]); simpl; rewrite Hd; [done|].
    by rewrite Hv.
  - destruct item as [| | | | | |d]; simpl; try done.
    destruct (dict_lookup "private" d) as [v|] eqn:Hd; intros Hv.
    + exists d. split; [done|]. right. exists v. split; [done|].
      by apply negb_true_iff.
    + exists d. auto.
Qed.

Lemma is_public_iff item : is_public item ↔ public_entry item.
Proof. by rewrite public_entry_spec, is_public_spec, Is_true_true. Qed.

Lemma public_entry_not_True item :
  public_entry item →
  ∃ d, item = PyDict d ∧ dict_lookup "private" d ≠ Some (PyBool true).
Proof.
  intros (d & -> & [Hd | (v & Hd & Hv)]); exists d; (split; [done|]);
    rewrite Hd; [done|].
  intros [= ->]. done.
Qed.

Lemma filter_is_public (l : list value) :
  filter (λ item, is_public item) l
  = filter (λ item, private_absent_or_not truthy item) l.
Proof. apply list_filter_iff. intros item. by rewrite is_public_spec. Qed.

(** C1, the claim as worded, fails.  A dict whose "private" entry is the
    number 1 has an entry that is not strictly true, so the claim keeps it;
    [filter_public] tests the truth value of the entry and drops it. *)
Lemma filter_public_list_drops_truthy_private :
  private_absent_or_not is_True flagged_by_number = true ∧
  filter (λ x, private_absent_or_not is_True x) [flagged_by_number]
  = [flagged_by_number] ∧
  filter_public (PyList [flagged_by_number]) = Return (PyList []) ∧
  filter_public (PyList [flagged_by_number])
  ≠ Return (PyList (filter (λ x, private_absent_or_not is_True x)
                      [flagged_by_number])).
Proof. by vm_compute. Qed.

(** C1, amended.  For every input whose top level is a list, filter_public
    returns the subsequence, in the original relative order, of exactly
    those elements that are dicts whose "private" entry is absent or has a
    false truth value (None, false, 0, 0.0, an empty string, list or dict);
    so every retained entry is a dict that lacks "private" or has it set to
    a value other than true. *)
Theorem filter_public_list (l : list value) :
  ∃ l',
    filter_public (PyList l) = Return (PyList l') ∧
    l' = filter (λ item, private_absent_or_not truthy item) l ∧
    l' `sublist_of` l ∧
    (∀ item, item ∈ l' ↔ item ∈ l ∧ public_entry item) ∧
    (∀ item, item ∈ l' →
       ∃ d, item = PyDict d ∧ dict_lookup "private" d ≠ Some (PyBool true)).
Proof.
  exists (filter (λ item, is_public item) l).
  assert (∀ item, item ∈ filter (λ item, is_public item) l
                  ↔ item ∈ l ∧ public_entry item) as Hin.
  { intros item. rewrite list_elem_of_filter, is_public_iff. tauto. }
  split_and!; [done | apply filter_is_public | apply sublist_filter | done |].
  intros item [_ Hpub]%Hin. by apply public_entry_not_True.
Qed.

(** C3, the claim as worded, fails in the same way: the pair whose value
    carries "private": 1 is not strictly true, and is dropped. *)
Lemma filter_public_dict_drops_truthy_private :
  private_absent_or_not is_True flagged_by_number = true ∧
  dict_lookup "x" [("x", flagged_by_number)] = Some flagged_by_number ∧
  filter_public (PyDict [("x", flagged_by_number)]) = Return (PyDict []) ∧
  filter_public (PyDict [("x", flagged_by_number)])
  ≠ Return (PyDict (filter (λ kv, private_absent_or_not is_True kv.2)
                      [("x", flagged_by_number)])).
Proof. by vm_compute. Qed.

(** C3, amended.  For every input whose top level is a dict, filter_public
    returns the dict of exactly those key/value pairs whose value is a dict
    and whose "private" entry is absent or has a false truth value, each
    retained key still mapped to its original value and the pairs in their
    original order; in particular {"x":{"v":1},"y":{"v":2,"private":true}}
    yields {"x":{"v":1}}. *)
Theorem filter_public_dict (d : dict) (Hkeys : NoDup d.*1) :
  (∃ d',
     filter_public (PyDict d) = Return (PyDict d') ∧
     d' = filter (λ kv, private_absent_or_not truthy kv.2) d ∧
     NoDup d'.*1 ∧
     d' `sublist_of` d ∧
     (∀ k v, dict_lookup k d' = Some v
             ↔ dict_lookup k d = Some v ∧ public_entry v)) ∧
  filter_public
    (PyDict [("x", PyDict [("v", PyInt 1)]);
             ("y", PyDict [("v", PyInt 2); ("private", PyBool true)])])
  = Return (PyDict [("x", PyDict [("v", PyInt 1)])]).
Proof.
  split; [|by vm_compute].
  exists (filter (λ kv, is_public kv.2) d).
  assert (NoDup (filter (λ kv : string * value, is_public kv.2) d).*1)
    as Hnd by by apply filter_keys_NoDup.
  split_and!.
  - simpl. by rewrite dict_comprehension_NoDup.
  - apply list_filter_iff. intros [k v]. simpl. by rewrite is_public_spec.
  - done.
  - apply sublist_filter.
  - intros k v. rewrite !dict_lookup_iff by done.
    rewrite list_elem_of_filter. simpl. rewrite is_public_iff. tauto.
Qed.

Lemma filter_public_dict_witness :
  ∃ d', filter_public (PyDict [("x", PyDict [("v", PyInt 1)])])
        = Return (PyDict d') ∧
        dict_lookup "x" d' = Some (PyDict [("v", PyInt 1)]).
Proof.
  assert (NoDup [("x", PyDict [("v", PyInt 1)])].*1) as Hkeys
    by (apply NoDup_singleton).
  destruct (filter_public_dict _ Hkeys) as [(d' & Hrun & _ & _ & _ & Hget) _].
  exists d'. split; [exact Hrun|].
  apply Hget. split; [reflexivity|].
  exists [("v", PyInt 1)]. split; [reflexivity | left; reflexivity].
Defined.

(** ** The key extractor *)

Lemma is_valid_spec v :
  is_valid v ↔ ∃ d, v = PyDict d ∧ dict_lookup "valid" d = Some (PyBool true).
Proof.
  split.
  - destruct v as [| | | | | |d]; simpl; try done.
    unfold dict_get.
    destruct (dict_lookup "valid" d) as [[|[]| | | | |]|] eqn:Hd;
      simpl; try done.
    intros _. by exists d.
  - intros (d & -> & Hd). simpl. unfold dict_get. by rewrite Hd.
Qed.

(** The loop of [extract_valid_keys] collects the keys of the valid entries
    in the order of the dict. *)
Lemma valid_keys_loop (response : dict) (acc : list string) :
  fold_left (λ keys kv, if is_valid kv.2 then keys ++ [kv.1] else keys)
    response acc
  = acc ++ (filter (λ kv, is_valid kv.2) response).*1.
Proof.
  revert acc. induction response as [|[k v] response IH]; intros acc; simpl.
  - by rewrite app_nil_r.
  - rewrite IH. destruct (is_valid v) eqn:Hv.
    + rewrite filter_cons_True by (simpl; by rewrite Hv).
      csimpl. rewrite <-(assoc_L (++) acc [k]). reflexivity.
    + rewrite filter_cons_False by (simpl; rewrite Hv; intros []). done.
Qed.

Lemma extract_valid_keys_Permutation (response : dict) :
  extract_valid_keys response ≡ₚ (filter (λ kv, is_valid kv.2) response).*1.
Proof.
  unfold extract_valid_keys, sort.
  by rewrite merge_sort_Permutation, valid_keys_loop.
Qed.

Lemma StronglySorted_le_lt (l : list string) :
  StronglySorted String.le l → NoDup l → StronglySorted str_lt l.
Proof.
  induction 1 as [|x l Hl IH Hx]; intros Hnd; constructor.
  - apply IH. by apply NoDup_cons in Hnd as [_ ?].
  - apply NoDup_cons in Hnd as [Hnotin _].
    apply Forall_forall. intros y Hy. split.
    + by eapply Forall_forall in Hx.
    + by intros ->.
Qed.

(** C2.  On a response dict, extract_valid_keys returns the sorted,
    duplicate-free list of exactly the keys k whose value is a dict with
    "valid" set to the boolean true itself; it is a total function, and when
    nothing matches the list is empty. *)
Theorem extract_valid_keys_sorted_valid (response : dict)
    (Hkeys : NoDup response.*1) :
  let keys := extract_valid_keys response in
  StronglySorted String.le keys ∧
  NoDup keys ∧
  StronglySorted str_lt keys ∧
  (∀ k, k ∈ keys ↔ valid_key response k) ∧
  ((∀ k, ¬ valid_key response k) → keys = []).
Proof.
  intros keys.
  assert (StronglySorted String.le keys) as Hsorted
    by apply (StronglySorted_merge_sort _).
  assert (NoDup keys) as Hnd.
  { unfold keys. rewrite extract_valid_keys_Permutation.
    by apply filter_keys_NoDup. }
  assert (∀ k, k ∈ keys ↔ valid_key response k) as Hin.
  { intros k. unfold keys, valid_key.
    rewrite extract_valid_keys_Permutation, list_elem_of_fmap. split.
    - intros ([k' v] & -> & [Hv Hkv]%list_elem_of_filter). simpl in *.
      apply is_valid_spec in Hv as (d & -> & Hd).
      exists d. split; [by apply elem_of_dict_lookup | done].
    - intros (d & Hk%dict_lookup_elem_of & Hd).
      exists (k, PyDict d). split; [done|].
      apply list_elem_of_filter. split; [|done].
      apply is_valid_spec. by exists d. }
  split_and!; [done | done | by apply StronglySorted_le_lt | done |].
  intros Hnone. destruct keys as [|k keys'] eqn:Heq; [done|].
  destruct (Hnone k). apply Hin. left.
Qed.

Lemma extract_valid_keys_sorted_valid_witness :
  NoDup scenario_response.*1 ∧
  StronglySorted str_lt (extract_valid_keys scenario_response) ∧
  "k1" ∈ extract_valid_keys scenario_response.
Proof.
  assert (NoDup scenario_response.*1) as Hkeys
    by (apply (bool_decide_unpack _); vm_compute; exact I).
  split; [exact Hkeys|].
  destruct (extract_valid_keys_sorted_valid scenario_response Hkeys)
    as (_ & _ & Hlt & Hin & _).
  split; [exact Hlt|].
  apply Hin. exists [("valid", PyBool true)]. split; reflexivity.
Defined.

(** Scenario 3 of the specification, and a flag that is only truthy. *)
Example extract_valid_keys_scenario :
  extract_valid_keys scenario_response = ["k1"] ∧
  extract_valid_keys [("b", PyDict [("valid", PyBool true)]);
                      ("c", PyDict [("valid", PyInt 1)]);
                      ("a", PyDict [("valid", PyBool true)])] = ["a"; "b"].
Proof. by vm_compute. Qed.

(** ** The poster *)

Lemma in_chars_separator c : in_chars c "/" = bool_decide (c = "/"%char).
Proof. unfold in_chars. apply bool_decide_ext. simpl. apply list_elem_of_singleton. Qed.

Lemma rstrip_separators (s : string) :
  ∃ n, s = (rstrip "/" s +:+ separators n)%string.
Proof.
  induction s as [|c s [n IH]]; [by exists 0%nat|].
  simpl. destruct (rstrip "/" s) as [|a r] eqn:Hs.
  - rewrite in_chars_separator.
    case_bool_decide as Hc; [rewrite Hc; exists (S n) | exists n];
      simpl; by rewrite IH at 1.
  - exists n. by rewrite IH at 1.
Qed.

Lemma rstrip_no_separator (s : string) : ends_with "/" (rstrip "/" s) = false.
Proof.
  induction s as [|c s IH]; [done|].
  simpl. destruct (rstrip "/" s) as [|a r] eqn:Hs.
  - rewrite in_chars_separator. case_bool_decide; simpl; [done|].
    by apply bool_decide_eq_false.
  - done.
Qed.

Ltac run_io :=
  unfold mbind, mret, io_mbind, io_ret, io_bind, try_except, emit, lift, raise;
  simpl.

(** One POST, and what becomes of its answer. *)
Lemma post_generate_run w base_url payload verify timeout :
  let url := (rstrip "/" base_url +:+ "/service/generate")%string in
  let headers := [("Content-Type", "application/json")] in
  post_generate w base_url payload verify timeout =
  ([HttpPost url payload headers timeout verify],
   match requests_post w url payload headers timeout verify with
   | Raise e =>
       Raise (if is_RequestException e then HTTPRequestError (str e) else e)
   | Return resp =>
       if bool_decide (400 ≤ status_code resp < 600)
       then Raise (HTTPRequestError "HTTP status error")
       else match json resp with
            | Raise (JSONDecodeError _) =>
                Raise (HTTPRequestError "response not valid JSON")
            | Raise e => Raise e
            | Return (PyDict d) => Return d
            | Return _ =>
                Raise (HTTPRequestError "expected JSON map/object in response")
            end
   end).
Proof.
  intros url headers. unfold post_generate. fold url. fold headers.
  destruct (requests_post w url payload headers timeout verify) as [resp|e];
    run_io.
  - unfold raise_for_status. case_bool_decide; run_io; [done|].
    destruct (json resp) as [[]|[]]; by run_io.
  - by destruct (is_RequestException e).
Qed.

(** C8.  For every base address, post_generate sends its POST, the only
    one, to the address made of the base without its trailing path
    separators followed by "/service/generate". *)
Theorem post_generate_target w (base_url : string) payload verify timeout :
  ∃ stripped n,
    base_url = (stripped +:+ separators n)%string ∧
    ends_with "/" stripped = false ∧
    stripped = rstrip "/" base_url ∧
    (post_generate w base_url payload verify timeout).1
    = [HttpPost (stripped +:+ "/service/generate")%string payload
         [("Content-Type", "application/json")] timeout verify].
Proof.
  destruct (rstrip_separators base_url) as [n Hn].
  exists (rstrip "/" base_url), n.
  split_and!; [done | apply rstrip_no_separator | done |].
  by rewrite post_generate_run.
Qed.

Example post_generate_target_samples :
  rstrip "/" "https://example.com/" = "https://example.com" ∧
  rstrip "/" "https://example.com" = "https://example.com" ∧
  rstrip "/" "https://example.com/api//" = "https://example.com/api" ∧
  (post_generate world_ok "https://example.com/" (PyList []) true 10).1
  = [HttpPost "https://example.com/service/generate" (PyList [])
       [("Content-Type", "application/json")] 10 true].
Proof. by vm_compute. Qed.

(** C7, the claim as worded, fails: a response with status 300 and a JSON
    object as body is not 2xx, and post_generate returns its object. *)
Lemma post_generate_returns_on_status_300 :
  transport_answer world_300 "https://example.com" (PyList []) true 10
  = answer_300 ∧
  (∃ resp, answer_300 = Return resp ∧ ¬ (200 ≤ status_code resp < 300)) ∧
  (post_generate world_300 "https://example.com" (PyList []) true 10).2
  = Return [("k1", PyDict [("valid", PyBool true)])].
Proof.
  split_and!.
  - reflexivity.
  - eexists. split; [reflexivity|]. simpl. lia.
  - by vm_compute.
Qed.

(** C7, amended.  post_generate fails with an HTTP error exactly when the
    request raises a RequestException, the response status is 4xx or 5xx,
    the response body is not well-formed JSON (json() raises
    JSONDecodeError), or the parsed value is not a dict; an exception of
    another class raised by the request or by json() leaves post_generate
    as it is; in every other case post_generate returns the parsed dict.
    The transport is a library: it does not raise the program's own
    HTTPRequestError. *)
Theorem post_generate_http_error w base_url payload verify timeout
    (Hlibrary : raises_no_HTTPRequestError
                  (transport_answer w base_url payload verify timeout)) :
  let answer := transport_answer w base_url payload verify timeout in
  let outcome := (post_generate w base_url payload verify timeout).2 in
  ((∃ msg, outcome = Raise (HTTPRequestError msg)) ↔ http_failure answer) ∧
  (∀ e, foreign_failure answer e → outcome = Raise e) ∧
  (http_failure answer ∨
   (∃ e, foreign_failure answer e) ∨
   (∃ resp d, answer = Return resp ∧ json resp = Return (PyDict d) ∧
              outcome = Return d)).
Proof.
  intros answer outcome. subst outcome.
  rewrite post_generate_run. cbn zeta. cbn [snd].
  unfold transport_answer in *. fold answer in Hlibrary |- *.
  clearbody answer. destruct Hlibrary as [Hpost Hjson].
  destruct answer as [resp|e].
  - specialize (Hjson resp).
    case_bool_decide as Hstatus.
    { assert (http_failure (Return resp)) as Hfail
        by (right; exists resp; auto).
      split_and!; [split; [done | eauto] | | by left].
      intros e [[[=] _] | (resp' & [= <-] & ? & _)]. done. }
    destruct (json resp) as [v|e] eqn:Hbody.
    + assert ((∃ d, v = PyDict d) ∨ ∀ d, v ≠ PyDict d) as [[d ->] | Hv]
        by (destruct v; eauto).
      * split_and!.
        -- split; [by intros [msg [=]]|].
           intros [(e & [=] & _)
                  | (resp' & [= <-] & [? | [[msg He] | (v & Hv & Hd)]])];
             [done | congruence |].
           rewrite Hbody in Hv. simplify_eq. by destruct (Hd d).
        -- intros e [[[=] _] | (resp' & [= <-] & _ & He & _)]. congruence.
        -- right. right. by exists resp, d.
      * assert (http_failure (Return resp)) as Hfail.
        { right. exists resp. split; [done|]. right. right. by exists v. }
        split_and!; [split; [done|] | | by left].
        -- intros _. destruct v; eauto. by destruct (Hv d).
        -- intros e [[[=] _] | (resp' & [= <-] & _ & He & _)]. congruence.
    + assert ((∃ msg, e = JSONDecodeError msg) ∨ ∀ msg, e ≠ JSONDecodeError msg)
        as [[msg ->] | He] by (destruct e; eauto).
      * assert (http_failure (Return resp)) as Hfail.
        { right. exists resp. split; [done|]. right. left. eauto. }
        split_and!; [split; [done | eauto] | | by left].
        intros e [[[=] _] | (resp' & [= <-] & _ & He & Hne)].
        rewrite Hbody in He. injection He as <-. by destruct (Hne msg).
      * assert (foreign_failure (Return resp) e) as Hforeign.
        { right. by exists resp. }
        assert (match e with
                | JSONDecodeError _ =>
                    Raise (HTTPRequestError "response not valid JSON")
                | _ => Raise e
                end = (Raise e : result dict)) as ->
          by (destruct e; try done; by destruct (He msg)).
        split_and!; [split | | right; left; by exists e].
        -- intros [msg [= ->]]. by destruct (Hjson msg).
        -- intros [(e' & [=] & _)
                  | (resp' & [= <-] & [? | [[msg He'] | (v & Hv & _)]])];
             [done | | congruence].
           rewrite Hbody in He'. injection He' as ->. by destruct (He msg).
        -- intros e' [[[=] _] | (resp' & [= <-] & _ & He' & _)]. congruence.
  - destruct (is_RequestException e) eqn:Hclass.
    + assert (http_failure (Raise e : result Response)) as Hfail.
      { left. exists e. split; [done|]. by rewrite Hclass. }
      split_and!; [split; [done | eauto] | | by left].
      intros e' [[[= <-] He'] | (resp & [=] & _)]. congruence.
    + assert (foreign_failure (Raise e : result Response) e) as Hforeign
        by (by left).
      split_and!; [split | | right; left; by exists e].
      * intros [msg [= ->]]. by destruct (Hpost msg).
      * intros [(e' & [= <-] & He') | (resp & [=] & _)].
        rewrite Hclass in He'. by destruct He'.
      * by intros e' [[[= <-] _] | (resp & [=] & _)].
Qed.

Lemma post_generate_http_error_witness :
  raises_no_HTTPRequestError
    (transport_answer world_503 "https://example.com/" (PyList []) true 10) ∧
  ∃ msg, (post_generate world_503 "https://example.com/" (PyList [])
            true 10).2
         = Raise (HTTPRequestError msg).
Proof.
  assert (raises_no_HTTPRequestError
            (transport_answer world_503 "https://example.com/" (PyList [])
               true 10)) as Hlibrary.
  { split; [intros msg; discriminate|].
    intros resp msg [= <-]. discriminate. }
  split; [exact Hlibrary|].
  destruct (post_generate_http_error world_503 "https://example.com/"
              (PyList []) true 10 Hlibrary) as [[_ Hfail] _].
  apply Hfail. right. eexists. split; [reflexivity|]. left. simpl. lia.
Defined.

(** ** The loader *)

Lemma load_json_run w path :
  load_json w path =
  match read_source w path with
  | Raise (FileNotFoundError msg) => Raise (InputError msg)
  | Raise (JSONDecodeError msg) => Raise (InputError msg)
  | Raise e => Raise e
  | Return text =>
      match json_loads w text with
      | Raise (FileNotFoundError msg) => Raise (InputError msg)
      | Raise (JSONDecodeError msg) => Raise (InputError msg)
      | Raise e => Raise e
      | Return v => Return v
      end
  end.
Proof.
  unfold load_json, read_source, rtry, mbind, result_mbind.
  case_decide; [destruct (stdin_read w) as [text|[]]
               | destruct (open_read w path) as [text|[]]]; try done;
    by destruct (json_loads w text) as [v|[]].
Qed.

(** What the loader does get right: a missing file and malformed JSON are
    Input errors, and a readable, well-formed source gives its value. *)
Lemma load_json_input_errors w path :
  (∀ msg, read_source w path = Raise (FileNotFoundError msg) →
          load_json w path = Raise (InputError msg)) ∧
  (∀ text msg, read_source w path = Return text →
               json_loads w text = Raise (JSONDecodeError msg) →
               load_json w path = Raise (InputError msg)) ∧
  (∀ text v, read_source w path = Return text →
             json_loads w text = Return v → load_json w path = Return v).
Proof.
  rewrite load_json_run.
  split_and!; [intros msg -> | intros text msg -> -> | intros text v -> ->];
    done.
Qed.

(** ** The entry point *)

Lemma print_loop w (keys : list string) :
  for_each keys (λ k, print w k)
  = (Print <$> (print_run w keys).1,
     match (print_run w keys).2 with
     | None => Return tt
     | Some e => Raise e
     end).
Proof.
  induction keys as [|k keys IH]; [done|].
  cbn [for_each print_run]. rewrite IH. unfold print.
  destruct (stdout_print w k) as [[]|e]; run_io; [|done].
  by destruct (print_run w keys) as [printed [e|]].
Qed.

Lemma print_run_returns w (keys : list string) :
  (∀ k, k ∈ keys → stdout_print w k = Return tt) →
  print_run w keys = (keys, None).
Proof.
  induction keys as [|k keys IH]; intros Hok; [done|].
  simpl. rewrite (Hok k) by left.
  rewrite IH; [done|]. intros k' Hk'. apply Hok. by right.
Qed.

Lemma main_run w args :
  main w args =
  match load_json w (input args) with
  | Raise e => ([], Return (exit_status e))
  | Return raw =>
      match filter_public raw with
      | Raise e => ([], Return (exit_status e))
      | Return payload =>
          match post_generate w (url args) payload (negb (insecure args))
                  (timeout args) with
          | (t, Raise e) => (t, Return (exit_status e))
          | (t, Return resp_map) =>
              (t ++ (Print <$> (print_run w (extract_valid_keys resp_map)).1),
               Return match (print_run w (extract_valid_keys resp_map)).2 with
                      | None => 0
                      | Some e => exit_status e
                      end)
          end
      end
  end.
Proof.
  unfold main.
  destruct (load_json w (input args)) as [raw|e]; run_io;
    [|by destruct e].
  destruct (filter_public raw) as [payload|e]; run_io; [|by destruct e].
  destruct (post_generate _ _ _ _ _) as [t [resp_map|e]]; run_io.
  - rewrite print_loop.
    destruct (print_run w (extract_valid_keys resp_map)) as [printed [e|]];
      run_io; [|by rewrite app_nil_r].
    destruct e; simpl; by rewrite app_nil_r.
  - destruct e; simpl; by rewrite app_nil_r.
Qed.

(** *** Standard output, line by line *)

Lemma append_snoc (cur : string) (c : Ascii.ascii) (s : string) :
  ((cur +:+ String c EmptyString) +:+ s = cur +:+ String c s)%string.
Proof.
  induction cur as [|c' cur IH]; [done|].
  change (String c' ((cur +:+ String c EmptyString) +:+ s)
          = String c' (cur +:+ String c s))%string.
  by rewrite IH.
Qed.

Lemma append_empty (s : string) : (s +:+ EmptyString)%string = s.
Proof.
  induction s as [|c s IH]; [done|].
  change (String c (s +:+ EmptyString)%string = String c s). by rewrite IH.
Qed.

Lemma lines_from_key (cur k rest : string) :
  has_line_feed k = false →
  lines_from cur (k +:+ String LF rest)
  = (cur +:+ k)%string :: lines_from EmptyString rest.
Proof.
  revert cur. induction k as [|c k IH]; intros cur Hk.
  - change (lines_from cur (String LF rest)
            = (cur +:+ EmptyString)%string :: lines_from EmptyString rest).
    cbn [lines_from]. rewrite decide_True by done. by rewrite append_empty.
  - simpl in Hk. apply orb_false_iff in Hk as [Hc Hk].
    apply bool_decide_eq_false in Hc.
    change (lines_from cur (String c (k +:+ String LF rest))
            = (cur +:+ String c k)%string :: lines_from EmptyString rest).
    cbn [lines_from]. rewrite decide_False by done.
    by rewrite IH, append_snoc.
Qed.

Lemma output_lines_printed (keys : list string) :
  Forall (λ k, has_line_feed k = false) keys →
  output_lines (stdout_text (Print <$> keys)) = keys.
Proof.
  unfold output_lines. induction 1 as [|k keys Hk Hkeys IH]; [done|].
  csimpl. rewrite lines_from_key by done. by rewrite IH.
Qed.

(** C4, the claim as worded, fails: the extracted key of [world_two_lines]
    holds a line feed, main returns 0, and the two lines on standard output
    are "a" and "b", neither of them the key. *)
Lemma main_key_of_two_lines :
  main world_two_lines sample_args
  = ([HttpPost "https://example.com/service/generate" (PyList [])
        [("Content-Type", "application/json")] 10 true;
      Print key_of_two_lines], Return 0) ∧
  output_lines (stdout_text (main world_two_lines sample_args).1)
  = ["a"; "b"] ∧
  output_lines (stdout_text (main world_two_lines sample_args).1)
  ≠ [key_of_two_lines].
Proof. by vm_compute. Qed.

(** C4, amended.  main returns 0 when every stage and every print returns,
    having written each extracted key followed by a line feed to standard
    output in sorted order, so that the output lines are the keys when no
    key holds a line feed; it returns 2 when the pipeline fails with an
    Input, Validation or HTTP error, and 1 when it fails with any other
    exception, one raised by print included. *)
Theorem main_exit_status w args :
  (∀ raw payload t resp_map,
     load_json w (input args) = Return raw →
     filter_public raw = Return payload →
     post_generate w (url args) payload (negb (insecure args)) (timeout args)
     = (t, Return resp_map) →
     (∀ k, k ∈ extract_valid_keys resp_map → stdout_print w k = Return tt) →
     main w args = (t ++ (Print <$> extract_valid_keys resp_map), Return 0) ∧
     StronglySorted String.le (extract_valid_keys resp_map) ∧
     (Forall (λ k, has_line_feed k = false) (extract_valid_keys resp_map) →
      output_lines (stdout_text (main w args).1)
      = extract_valid_keys resp_map)) ∧
  (∀ e, pipeline_fails w args e → recognised e →
        (main w args).2 = Return 2) ∧
  (∀ e, pipeline_fails w args e → ¬ recognised e →
        (main w args).2 = Return 1).
Proof.
  assert (∀ e, pipeline_fails w args e →
               (main w args).2 = Return (exit_status e)) as Hfail.
  { intros e. rewrite main_run.
    intros [-> | raw -> -> | raw payload -> -> Hpost
           | raw payload resp_map -> -> Hpost Hprint]; try done.
    - destruct (post_generate _ _ _ _ _) as [t r]. simpl in *. by subst r.
    - destruct (post_generate _ _ _ _ _) as [t r]. simpl in *. subst r.
      by rewrite Hprint. }
  split_and!.
  - intros raw payload t resp_map Hload Hfilter Hpost Hprint.
    assert (main w args
            = (t ++ (Print <$> extract_valid_keys resp_map), Return 0))
      as Hrun.
    { rewrite main_run, Hload, Hfilter, Hpost.
      by rewrite (print_run_returns _ _ Hprint). }
    split_and!; [done | apply (StronglySorted_merge_sort _) |].
    intros Hkeys. rewrite Hrun. cbn [fst].
    assert (t = (post_generate w (url args) payload (negb (insecure args))
                   (timeout args)).1) as -> by by rewrite Hpost.
    rewrite post_generate_run. simpl. by apply output_lines_printed.
  - intros e He Hrec. rewrite (Hfail e He). unfold exit_status.
    by rewrite (Is_true_true_1 _ Hrec).
  - intros e He Hrec. rewrite (Hfail e He). unfold exit_status.
    by destruct (recognised e).
Qed.

Lemma main_exit_status_witness :
  main world_ok sample_args
  = ([HttpPost "https://example.com/service/generate" (PyList [])
        [("Content-Type", "application/json")] 10 true;
      Print "k1"; Print "k2"], Return 0) ∧
  output_lines (stdout_text (main world_ok sample_args).1) = ["k1"; "k2"] ∧
  main world_print_fails sample_args
  = ([HttpPost "https://example.com/service/generate" (PyList [])
        [("Content-Type", "application/json")] 10 true;
      Print "k1"], Return 1).
Proof.
  destruct (main_exit_status world_ok sample_args) as [Hok _].
  destruct (Hok (PyList []) (PyList [])
              [HttpPost "https://example.com/service/generate" (PyList [])
                 [("Content-Type", "application/json")] 10 true]
              [("k2", PyDict [("valid", PyBool true)]);
               ("k1", PyDict [("valid", PyBool true)]);
               ("k3", PyStr "notadict")]) as (Hrun & _ & Hlines);
    [reflexivity | reflexivity | reflexivity | intros k _; reflexivity |].
  split; [exact Hrun|].
  split; [apply Hlines; vm_compute; repeat constructor|].
  destruct (main_exit_status world_print_fails sample_args) as (_ & _ & Hone).
  assert (pipeline_fails world_print_fails sample_args
            (OtherException "UnicodeEncodeError"
               "'ascii' codec can't encode character")) as Hfails
    by (by eapply (print_fails _ _ _ (PyList []) (PyList []))).
  specialize (Hone _ Hfails (λ H, H)).
  destruct (main world_print_fails sample_args) as [t r] eqn:Hmain.
  simpl in Hone. subst r. vm_compute in Hmain. by simplify_eq.
Defined.

(** C5.  A parsed value whose top level is neither a list nor a dict makes
    filter_public fail with a Validation error, and the pipeline that loaded
    it exits with status 2 without posting anything. *)
Theorem filter_public_scalar (data : value)
    (Hlist : ∀ l, data ≠ PyList l) (Hdict : ∀ d, data ≠ PyDict d) :
  (∃ msg, filter_public data = Raise (ValidationError msg)) ∧
  (∀ w args, load_json w (input args) = Return data →
             main w args = ([], Return 2)).
Proof.
  assert (filter_public data
          = Raise (ValidationError "unsupported top-level JSON type")) as Hrun.
  { destruct data as [| | | | |l|d]; try done;
      [by destruct (Hlist l) | by destruct (Hdict d)]. }
  split; [eauto|].
  intros w args Hload. by rewrite main_run, Hload, Hrun.
Qed.

Lemma filter_public_scalar_witness :
  load_json world_number (input sample_args) = Return (PyInt 42) ∧
  (∃ msg, filter_public (PyInt 42) = Raise (ValidationError msg)) ∧
  main world_number sample_args = ([], Return 2).
Proof.
  assert (load_json world_number (input sample_args) = Return (PyInt 42))
    as Hload by reflexivity.
  assert (∀ l, PyInt 42 ≠ PyList l) as Hlist by (intros l; discriminate).
  assert (∀ d, PyInt 42 ≠ PyDict d) as Hdict by (intros d; discriminate).
  destruct (filter_public_scalar (PyInt 42) Hlist Hdict) as [Hfilter Hmain].
  split; [exact Hload|]. split; [exact Hfilter|].
  exact (Hmain world_number sample_args Hload).
Defined.

(** C6 at an unreadable source.  The file exists and the process may not
    read it: [open] raises PermissionError, no clause of load_json catches
    it, so load_json raises PermissionError and no Input error, and main
    returns 1 and not 2.  A file that does not exist gives the Input error
    and the status 2 the claim states. *)
Theorem load_json_unreadable_source :
  read_source world_unreadable (input sample_args)
  = Raise (PermissionError "[Errno 13] Permission denied") ∧
  load_json world_unreadable (input sample_args)
  = Raise (PermissionError "[Errno 13] Permission denied") ∧
  (∀ msg, load_json world_unreadable (input sample_args)
          ≠ Raise (InputError msg)) ∧
  main world_unreadable sample_args = ([], Return 1) ∧
  (∃ msg, load_json world_missing (input sample_args)
          = Raise (InputError msg)) ∧
  main world_missing sample_args = ([], Return 2).
Proof. split_and!; [done.. | by eexists | done]. Qed.

(** ** The refresh trigger *)

Import refresh_lambda.

Lemma environ_get_truthy w name :
  truthy (environ_get w name) = false
  ↔ environ w !! name = None ∨ environ w !! name = Some "".
Proof.
  unfold environ_get. destruct (environ w !! name) as [s|]; simpl.
  - rewrite negb_false_iff, bool_decide_eq_true.
    split; [intros ->; by right | by intros [|[=]]].
  - split; [by left | done].
Qed.

(** The result a failure [e] is turned into. *)
Lemma except_clauses_result (e : exn) :
  ClientError_built e →
  ∃ r, except_clauses e = ([], Return (PyDict r)) ∧
       dict_lookup "status" r = Some (PyStr "error") ∧
       dict_lookup "message" r = Some (PyStr (str e)) ∧
       dict_lookup "code" r = provider_code e.
Proof.
  unfold except_clauses.
  destruct e; try (intros _; eexists; split; [reflexivity|done]).
  simpl. intros [error Herror]. unfold dict_get in Herror.
  assert (dict_lookup "Error" response = Some (PyDict error)
          ∨ dict_lookup "Error" response = None ∧ error = []) as Hentry.
  { destruct (dict_lookup "Error" response); simpl in Herror; simplify_eq;
      auto. }
  exists [("status", PyStr "error"); ("message", PyStr msg);
          ("code", dict_get "Code" PyNone error)].
  run_io. unfold mbind, result_mbind, get_method, dict_get.
  destruct Hentry as [-> | [-> ->]]; simpl; by split_and!.
Qed.

Lemma lambda_handler_run w event context :
  lambda_handler w event context =
  if truthy (environ_get w "ASG_NAME") then
    let built := Boto3Client "autoscaling" (client_kwargs_of w) in
    let sent := StartInstanceRefresh (client_of w) (refresh_request w) in
    match boto3_client w "autoscaling" (client_kwargs_of w) with
    | Raise e => ([built] ++ (except_clauses e).1, (except_clauses e).2)
    | Return _ =>
        match start_instance_refresh w (client_of w) (refresh_request w) with
        | Raise e =>
            ([built; sent] ++ (except_clauses e).1, (except_clauses e).2)
        | Return resp =>
            ([built; sent],
             Return (PyDict
               [("status", PyStr "started");
                ("instance_refresh_id",
                 py_or (dict_get "InstanceRefreshId" PyNone resp)
                       (dict_get "InstanceRefreshId" (PyStr "unknown") resp));
                ("raw_response", PyDict resp)]))
        end
    end
  else ([], Return error_unset).
Proof.
  unfold lambda_handler, client_of, refresh_request, client_kwargs_of.
  destruct (truthy (environ_get w "ASG_NAME")); [|done]. simpl.
  destruct (truthy (environ_get w "AWS_REGION")); simpl; run_io;
    (destruct (boto3_client w _ _) as [[]|e]; run_io;
     [destruct (start_instance_refresh w _ _) as [resp|e]; run_io|];
     [done | by destruct (except_clauses e) | by destruct (except_clauses e)]).
Qed.

(** C9.  lambda_handler always returns a dict and never raises.  With
    ASG_NAME unset or empty it returns {"status": "error", "message":
    "ASG_NAME not set"} and makes no call at all; when building the client
    or the provider call raises, it returns a dict with status "error" and
    the message of the exception, and for a provider error the provider's
    error code as well. *)
Theorem lambda_handler_never_raises w event context
    (Hsdk : sdk_exceptions_built w) :
  (∃ t r status,
     lambda_handler w event context = (t, Return (PyDict r)) ∧
     dict_lookup "status" r = Some (PyStr status)) ∧
  (group_unset w →
   lambda_handler w event context = ([], Return error_unset)) ∧
  (¬ group_unset w → ∀ e, refresh_fails w e →
   ∃ t r,
     lambda_handler w event context = (t, Return (PyDict r)) ∧
     dict_lookup "status" r = Some (PyStr "error") ∧
     dict_lookup "message" r = Some (PyStr (str e)) ∧
     dict_lookup "code" r = provider_code e).
Proof.
  destruct Hsdk as [Hbuilt Hsent]. rewrite lambda_handler_run.
  destruct (truthy (environ_get w "ASG_NAME")) eqn:Hasg.
  - assert (¬ group_unset w) as Hset.
    { intros Hunset%environ_get_truthy. congruence. }
    cbn zeta.
    destruct (boto3_client w "autoscaling" (client_kwargs_of w))
      as [[]|e] eqn:Hclient.
    + destruct (start_instance_refresh w (client_of w) (refresh_request w))
        as [resp|e] eqn:Hrefresh.
      * split_and!; [by eauto | by intros ?%Hset |].
        intros _ e [? | _ ?]; congruence.
      * destruct (except_clauses_result e (Hsent _ _ _ Hrefresh))
          as (r & -> & Hstatus & Hmessage & Hcode).
        split_and!; [by eauto | by intros ?%Hset |].
        intros _ e' [? | _ ?]; [congruence|].
        assert (e' = e) as -> by congruence.
        eexists _, r. split; [reflexivity | by split_and!].
    + destruct (except_clauses_result e (Hbuilt _ _ _ Hclient))
        as (r & -> & Hstatus & Hmessage & Hcode).
      split_and!; [by eauto | by intros ?%Hset |].
      intros _ e' [? | ? ?]; [|congruence].
      assert (e' = e) as -> by congruence.
      eexists _, r. split; [reflexivity | by split_and!].
  - apply environ_get_truthy in Hasg.
    split_and!; [by eexists [], _, _ | done | done].
Qed.

Lemma lambda_handler_never_raises_witness :
  sdk_exceptions_built sdk_denied ∧
  ∃ t r, lambda_handler sdk_denied PyNone PyNone = (t, Return (PyDict r)) ∧
         dict_lookup "status" r = Some (PyStr "error") ∧
         dict_lookup "code" r = Some (PyStr "AccessDenied").
Proof.
  assert (sdk_exceptions_built sdk_denied) as Hsdk.
  { split; unfold sdk_denied, sdk_world; simpl; intros; simplify_eq/=.
    by exists [("Code", PyStr "AccessDenied"); ("Message", PyStr "not authorized")]. }
  split; [exact Hsdk|].
  destruct (lambda_handler_never_raises sdk_denied PyNone PyNone Hsdk)
    as (_ & _ & Hfails).
  assert (¬ group_unset sdk_denied) as Hgroup
    by (intros [H|H]; by vm_compute in H).
  destruct (Hfails Hgroup access_denied
              (request_fails sdk_denied _ eq_refl eq_refl))
    as (t & r & Hrun & Hstatus & _ & Hcode).
  exists t, r. split; [exact Hrun|]. split; [exact Hstatus | exact Hcode].
Defined.

(** C10.  When the provider call succeeds and its response has no
    "InstanceRefreshId" key, lambda_handler still returns status "started",
    with instance_refresh_id the literal string "unknown". *)
Theorem lambda_handler_unknown_refresh_id w event context (resp : dict)
    (Hgroup : ¬ group_unset w)
    (Hclient : boto3_client w "autoscaling" (client_kwargs_of w) = Return tt)
    (Hrefresh : start_instance_refresh w (client_of w) (refresh_request w)
                = Return resp)
    (Hid : dict_lookup "InstanceRefreshId" resp = None) :
  (lambda_handler w event context).2
  = Return (PyDict [("status", PyStr "started");
                    ("instance_refresh_id", PyStr "unknown");
                    ("raw_response", PyDict resp)]).
Proof.
  rewrite lambda_handler_run.
  destruct (truthy (environ_get w "ASG_NAME")) eqn:Hasg;
    [|by apply environ_get_truthy in Hasg].
  cbn zeta. rewrite Hclient, Hrefresh. unfold dict_get. by rewrite Hid.
Qed.

Lemma lambda_handler_unknown_refresh_id_witness :
  lambda_handler sdk_without_id PyNone PyNone
  = ([Boto3Client "autoscaling" [];
      StartInstanceRefresh
        {| service_name := "autoscaling"; client_kwargs := [] |}
        [("AutoScalingGroupName", PyStr "web-asg");
         ("Strategy", PyStr "Rolling");
         ("Preferences", PyDict [("MinHealthyPercentage", PyInt 90);
                                 ("InstanceWarmup", PyInt 300)])]],
     Return (PyDict [("status", PyStr "started");
                     ("instance_refresh_id", PyStr "unknown");
                     ("raw_response", PyDict answer_without_id)])).
Proof.
  pose proof (lambda_handler_unknown_refresh_id sdk_without_id
                PyNone PyNone answer_without_id) as Hthm.
  assert (¬ group_unset sdk_without_id) as Hgroup
    by (intros [H|H]; by vm_compute in H).
  specialize (Hthm Hgroup eq_refl eq_refl eq_refl).
  destruct (lambda_handler _ _ _) as [t r] eqn:Hrun. simpl in Hthm. subst r.
  vm_compute in Hrun. by simplify_eq.
Defined.

(** * Further properties of the code *)

Import json_validator.

(** ** filter_public *)

Lemma filter_unchanged_iff {A} (P : A → Prop) `{!∀ x, Decision (P x)}
    (l : list A) :
  filter P l = l ↔ Forall P l.
Proof.
  induction l as [|x l IH].
  - split; [constructor | done].
  - rewrite Forall_cons, filter_cons. case_decide as Hx.
    + rewrite <-IH. split; [by intros [= ?] | by intros [_ ->]].
    + split; [|by intros [? _]].
      intros Heq. pose proof (length_filter P l) as Hlen.
      rewrite Heq in Hlen. simpl in Hlen. lia.
Qed.

Lemma filter_idempotent {A} (P : A → Prop) `{!∀ x, Decision (P x)}
    (l : list A) :
  filter P (filter P l) = filter P l.
Proof. by apply list_filter_filter_l. Qed.

(** X1.  Filtering is idempotent: filtering the output of filter_public
    again gives that output back, and on an input of unsupported shape both
    runs raise the same Validation error. *)
Theorem filter_public_idempotent (data : value) (Hkeys : distinct_keys data) :
  filter_public data ≫= filter_public = filter_public data.
Proof.
  destruct data as [| | | | |l|d]; try done.
  - unfold mbind, result_mbind. simpl. by rewrite filter_idempotent.
  - simpl in Hkeys. unfold mbind, result_mbind. simpl.
    rewrite (dict_comprehension_NoDup (filter _ d))
      by by apply filter_keys_NoDup.
    rewrite filter_idempotent.
    by rewrite dict_comprehension_NoDup by by apply filter_keys_NoDup.
Qed.

Lemma filter_public_idempotent_witness :
  distinct_keys mixed_payload ∧
  filter_public mixed_payload
  = Return (PyDict [("x", PyDict [("v", PyInt 1)])]) ∧
  filter_public (PyDict [("x", PyDict [("v", PyInt 1)])])
  = Return (PyDict [("x", PyDict [("v", PyInt 1)])]).
Proof.
  assert (distinct_keys mixed_payload) as Hkeys
    by (apply (bool_decide_unpack _); vm_compute; exact I).
  split; [exact Hkeys|]. split; [reflexivity|].
  exact (filter_public_idempotent mixed_payload Hkeys).
Defined.

(** X2.  filter_public returns a list unchanged exactly when every element
    of it is a dict whose "private" entry is absent or falsy: one element
    of another kind, and the output differs from the input. *)
Theorem filter_public_list_unchanged (l : list value) :
  filter_public (PyList l) = Return (PyList l) ↔ Forall public_entry l.
Proof.
  simpl. rewrite <-(Forall_iff (λ item, is_public item)) by apply is_public_iff.
  rewrite <-filter_unchanged_iff. split; [by intros [= ?] | by intros ->].
Qed.

(** X3.  The same for a dict at the top level: it comes back unchanged
    exactly when every value of it is a dict whose "private" entry is
    absent or falsy. *)
Theorem filter_public_dict_unchanged (d : dict) (Hkeys : NoDup d.*1) :
  filter_public (PyDict d) = Return (PyDict d)
  ↔ Forall (λ kv, public_entry kv.2) d.
Proof.
  simpl. rewrite dict_comprehension_NoDup by by apply filter_keys_NoDup.
  rewrite <-(Forall_iff (λ kv : string * value, is_public kv.2))
    by (intros kv; apply is_public_iff).
  rewrite <-filter_unchanged_iff. split; [by intros [= ?] | by intros ->].
Qed.

Lemma filter_public_dict_unchanged_witness :
  filter_public (PyDict [("x", PyDict [("v", PyInt 1)])])
  = Return (PyDict [("x", PyDict [("v", PyInt 1)])]).
Proof.
  assert (NoDup [("x", PyDict [("v", PyInt 1)])].*1) as Hkeys
    by (apply (bool_decide_unpack _); vm_compute; exact I).
  apply (filter_public_dict_unchanged _ Hkeys).
  repeat constructor. exists [("v", PyInt 1)]. split; [reflexivity|].
  left. reflexivity.
Defined.

(** X4.  The filter decides on each element by itself: filtering two lists
    put end to end gives the two filtered lists put end to end, so no
    element changes the fate of another. *)
Theorem filter_public_list_app (l1 l2 : list value) :
  ∃ l1' l2',
    filter_public (PyList l1) = Return (PyList l1') ∧
    filter_public (PyList l2) = Return (PyList l2') ∧
    filter_public (PyList (l1 ++ l2)) = Return (PyList (l1' ++ l2')) ∧
    (length l1' + length l2' ≤ length l1 + length l2)%nat.
Proof.
  eexists _, _. split_and!; [done | done | simpl; by rewrite filter_app |].
  pose proof (length_filter (λ item, is_public item) l1).
  pose proof (length_filter (λ item, is_public item) l2). lia.
Qed.

(** ** extract_valid_keys *)

Lemma extract_valid_keys_StronglySorted (response : dict) :
  StronglySorted String.le (extract_valid_keys response).
Proof. apply (StronglySorted_merge_sort _). Qed.

Lemma sorted_keys_unique (l1 l2 : list string) :
  StronglySorted String.le l1 → StronglySorted String.le l2 →
  l1 ≡ₚ l2 → l1 = l2.
Proof. apply (StronglySorted_unique _). Qed.

(** X5.  The order of the entries in the response does not show in the
    result: two responses with the same entries in different orders give
    the same list of keys. *)
Theorem extract_valid_keys_order_independent (response1 response2 : dict)
    (Hsame : response1 ≡ₚ response2) :
  extract_valid_keys response1 = extract_valid_keys response2.
Proof.
  apply sorted_keys_unique; [apply extract_valid_keys_StronglySorted..|].
  rewrite !extract_valid_keys_Permutation. by rewrite Hsame.
Qed.

Lemma extract_valid_keys_order_independent_witness :
  extract_valid_keys scenario_response_reordered
  = extract_valid_keys scenario_response.
Proof.
  apply extract_valid_keys_order_independent.
  unfold scenario_response_reordered, scenario_response.
  rewrite <-(reverse_Permutation
               [("k1", PyDict [("valid", PyBool true)]);
                ("k2", PyDict [("valid", PyBool false)]);
                ("k3", PyStr "notadict")]).
  reflexivity.
Defined.

(** X6.  The keys of two responses merge.  For two responses with no key
    in common, so that their entries together are again a response, the
    keys extracted from the whole are the sorted merge of the keys
    extracted from each part, and no key comes twice. *)
Theorem extract_valid_keys_app (response1 response2 : dict)
    (Hkeys : NoDup (response1 ++ response2).*1) :
  extract_valid_keys (response1 ++ response2)
  = sort (extract_valid_keys response1 ++ extract_valid_keys response2) ∧
  NoDup (extract_valid_keys response1 ++ extract_valid_keys response2).
Proof.
  split.
  - apply sorted_keys_unique;
      [apply extract_valid_keys_StronglySorted
      | apply (StronglySorted_merge_sort _) |].
    unfold sort. rewrite merge_sort_Permutation.
    rewrite !extract_valid_keys_Permutation.
    by rewrite filter_app, fmap_app.
  - rewrite !extract_valid_keys_Permutation, <-fmap_app, <-filter_app.
    by apply filter_keys_NoDup.
Qed.

Lemma extract_valid_keys_app_witness :
  extract_valid_keys
    ([("b", PyDict [("valid", PyBool true)])]
     ++ [("c", PyDict [("valid", PyInt 1)]);
         ("a", PyDict [("valid", PyBool true)])])
  = sort (extract_valid_keys [("b", PyDict [("valid", PyBool true)])]
          ++ extract_valid_keys [("c", PyDict [("valid", PyInt 1)]);
                                 ("a", PyDict [("valid", PyBool true)])]).
Proof.
  apply (extract_valid_keys_app
           [("b", PyDict [("valid", PyBool true)])]
           [("c", PyDict [("valid", PyInt 1)]);
            ("a", PyDict [("valid", PyBool true)])]).
  apply (bool_decide_unpack _). vm_compute. exact I.
Defined.



(** ** post_generate *)

Lemma rstrip_only_separators (n : nat) : rstrip "/" (separators n) = "".
Proof.
  induction n as [|n IH]; [done|].
  simpl. rewrite IH. reflexivity.
Qed.

Lemma rstrip_app_separators (s : string) (n : nat) :
  rstrip "/" (s +:+ separators n) = rstrip "/" s.
Proof.
  induction s as [|c s IH]; [apply rstrip_only_separators|].
  change (String c s +:+ separators n)%string
    with (String c (s +:+ separators n)).
  simpl. by rewrite IH.
Qed.

Lemma rstrip_unchanged (s : string) :
  ends_with "/" s = false → rstrip "/" s = s.
Proof.
  induction s as [|c s IH]; [done|].
  destruct s as [|a r].
  - simpl. rewrite in_chars_separator. by intros ->.
  - intros Hends. change (ends_with "/" (String a r) = false) in Hends.
    change (rstrip "/" (String c (String a r)))
      with (match rstrip "/" (String a r) with
            | EmptyString =>
                if in_chars c "/" then EmptyString else String c EmptyString
            | r' => String c r'
            end).
    by rewrite (IH Hends).
Qed.

(** X8.  Trailing separators on the base address do not matter: the base
    with any number of them appended is posted to the same address, with
    the same outcome. *)
Theorem post_generate_ignores_trailing_separators w (base_url : string)
    (n : nat) payload verify timeout :
  post_generate w (base_url +:+ separators n) payload verify timeout
  = post_generate w base_url payload verify timeout.
Proof. unfold post_generate. by rewrite rstrip_app_separators. Qed.

(** X9.  A base address that does not end in a separator (the empty one
    included) is used as it stands: the POST goes to the base followed by
    "/service/generate", separators inside the base untouched. *)
Theorem post_generate_base_verbatim w (base_url : string) payload verify
    timeout (Hbase : ends_with "/" base_url = false) :
  (post_generate w base_url payload verify timeout).1
  = [HttpPost (base_url +:+ "/service/generate") payload
       [("Content-Type", "application/json")] timeout verify].
Proof. rewrite post_generate_run. simpl. by rewrite rstrip_unchanged. Qed.

Lemma post_generate_base_verbatim_witness :
  (post_generate world_ok "https://example.com//api" (PyList []) true 10).1
  = [HttpPost "https://example.com//api/service/generate" (PyList [])
       [("Content-Type", "application/json")] 10 true].
Proof.
  apply (post_generate_base_verbatim world_ok "https://example.com//api").
  reflexivity.
Defined.

(** X10.  post_generate turns into an HTTP error only what its clauses
    name.  When the transport raises something that is no RequestException,
    or json() of an accepted response raises something that is no
    JSONDecodeError, that exception leaves post_generate as it is. *)
Theorem post_generate_reraises w base_url payload verify timeout (e : exn)
    (Hunexpected :
       unexpected_answer
         (requests_post w (rstrip "/" base_url +:+ "/service/generate")
            payload [("Content-Type", "application/json")] timeout verify)
         e) :
  (post_generate w base_url payload verify timeout).2 = Raise e.
Proof.
  rewrite post_generate_run. cbn zeta. cbn [snd].
  destruct Hunexpected as [[-> He] | (resp & -> & Hstatus & Hbody & Hclass)].
  - by rewrite He.
  - rewrite bool_decide_false by done. rewrite Hbody.
    destruct e; try done. by destruct (Hclass msg).
Qed.

Lemma post_generate_reraises_witness :
  post_generate world_type_error "https://example.com" (PyList []) true 10
  = ([HttpPost "https://example.com/service/generate" (PyList [])
        [("Content-Type", "application/json")] 10 true],
     Raise (OtherException "TypeError"
              "Object of type set is not JSON serializable")).
Proof.
  pose proof (post_generate_reraises world_type_error "https://example.com"
                (PyList []) true 10
                (OtherException "TypeError"
                   "Object of type set is not JSON serializable")
                (or_introl (conj eq_refl eq_refl))) as Hraise.
  destruct (post_generate _ _ _ _ _) as [t r] eqn:Hrun.
  simpl in Hraise. subst r. vm_compute in Hrun. by simplify_eq.
Defined.

(** ** load_json *)

(** X11.  load_json returns a value exactly when the source was read and
    its text parsed to that value: it never makes a value up and never
    drops one. *)
Theorem load_json_returns w path (v : value) :
  load_json w path = Return v
  ↔ ∃ text, read_source w path = Return text ∧ json_loads w text = Return v.
Proof.
  rewrite load_json_run. split.
  - destruct (read_source w path) as [text|[]]; try done.
    destruct (json_loads w text) as [v'|[]] eqn:Hparse; try done.
    intros [= ->]. by exists text.
  - by intros (text & -> & ->).
Qed.

(** X12.  What load_json raises.  When reading the source or parsing its
    text raises [e], load_json raises an Input error with the message of
    [e] if [e] is a FileNotFoundError or a JSONDecodeError, and [e] itself,
    unchanged, if it is of any other class. *)
Theorem load_json_raises w path (e : exn) (Hfail : load_failure w path e) :
  load_json w path
  = Raise (if is_FileNotFound_or_JSONDecode e then InputError (str e) else e).
Proof.
  rewrite load_json_run.
  destruct Hfail as [-> | (text & -> & ->)]; by destruct e.
Qed.

Lemma load_json_raises_witness :
  load_json world_missing "coding/example.json"
  = Raise (InputError "[Errno 2] No such file or directory") ∧
  load_json world_unreadable "coding/example.json"
  = Raise (PermissionError "[Errno 13] Permission denied").
Proof.
  split.
  - apply (load_json_raises world_missing "coding/example.json"
             (FileNotFoundError "[Errno 2] No such file or directory")).
    left. reflexivity.
  - apply (load_json_raises world_unreadable "coding/example.json"
             (PermissionError "[Errno 13] Permission denied")).
    left. reflexivity.
Defined.

(** X13.  load_json consults the named source and nothing else: for "-"
    the files do not matter, for any other path standard input and the
    other files do not.  Two worlds with the same parser that agree on the
    source named give the same outcome. *)
Theorem load_json_source_only w1 w2 path
    (Hparser : ∀ text, json_loads w1 text = json_loads w2 text)
    (Hstdin : path = "-" → stdin_read w1 = stdin_read w2)
    (Hfile : path ≠ "-" → open_read w1 path = open_read w2 path) :
  load_json w1 path = load_json w2 path.
Proof.
  rewrite !load_json_run. unfold read_source.
  case_decide as Hpath.
  - rewrite (Hstdin Hpath).
    destruct (stdin_read w2) as [text|e]; [by rewrite Hparser | done].
  - rewrite (Hfile Hpath).
    destruct (open_read w2 path) as [text|e]; [by rewrite Hparser | done].
Qed.

Lemma load_json_source_only_witness :
  load_json world_ok_other_stdin "coding/example.json"
  = load_json world_ok "coding/example.json".
Proof.
  apply load_json_source_only.
  - intros text. reflexivity.
  - intros Hpath. discriminate Hpath.
  - intros _. reflexivity.
Defined.

(** ** main *)

Lemma main_status_of_failure w args (e : exn) :
  pipeline_fails w args e → (main w args).2 = Return (exit_status e).
Proof.
  rewrite main_run.
  intros [-> | raw -> -> | raw payload -> -> Hpost
         | raw payload resp_map -> -> Hpost Hprint]; try done.
  - destruct (post_generate _ _ _ _ _) as [t r]. simpl in *. by subst r.
  - destruct (post_generate _ _ _ _ _) as [t r]. simpl in *. subst r.
    by rewrite Hprint.
Qed.

Lemma main_status_of_success w args (resp_map : dict) :
  pipeline_succeeds w args resp_map → (main w args).2 = Return 0.
Proof.
  rewrite main_run. intros [(raw & payload & -> & -> & Hpost) Hprint].
  destruct (post_generate _ _ _ _ _) as [t r]. simpl in *. subst r.
  by rewrite Hprint.
Qed.

Lemma pipeline_outcome w args :
  (∃ resp_map, pipeline_succeeds w args resp_map) ∨
  (∃ e, pipeline_fails w args e).
Proof.
  destruct (load_json w (input args)) as [raw|e] eqn:Hload;
    [|right; exists e; by apply load_fails].
  destruct (filter_public raw) as [payload|e] eqn:Hfilter;
    [|right; exists e; by eapply filter_fails].
  destruct (post_generate w (url args) payload (negb (insecure args))
              (timeout args)).2 as [resp_map|e] eqn:Hpost;
    [|right; exists e; by eapply post_fails].
  destruct (print_run w (extract_valid_keys resp_map)).2 as [e|] eqn:Hprint.
  - right. exists e. by eapply print_fails.
  - left. exists resp_map. split; [|done].
    exists raw, payload. by rewrite Hload.
Qed.

Lemma exit_status_values (e : exn) :
  (exit_status e = 2 ∧ recognised e) ∨ (exit_status e = 1 ∧ ¬ recognised e).
Proof. unfold exit_status. destruct (recognised e); simpl; auto. Qed.

Lemma pipeline_fails_once w args (e e' : exn) :
  pipeline_fails w args e → pipeline_fails w args e' → e' = e.
Proof.
  intros [? | raw ? ? | raw payload ? ? ? | raw payload resp_map ? ? ? ?]
         [? | raw' ? ? | raw' payload' ? ? ? | raw' payload' resp_map' ? ? ? ?];
    simplify_eq; congruence.
Qed.

Lemma pipeline_fails_or_succeeds w args (e : exn) (resp_map : dict) :
  pipeline_fails w args e → ¬ pipeline_succeeds w args resp_map.
Proof.
  intros He [(raw & payload & ? & ? & ?) ?].
  destruct He as [? | raw' ? ? | raw' payload' ? ? ?
                 | raw' payload' resp_map' ? ? ? ?];
    simplify_eq; congruence.
Qed.

(** X14.  The exit status tells the outcome.  With the arguments parsed,
    main leaves its [try] by returning 0, 1 or 2; it returns 0 only when
    every stage and every print returned, 2 only when a stage or a print
    raised an Input, Validation or HTTP error, and 1 only when a stage or a
    print raised an exception of another class. *)
Theorem main_status_tells_outcome w args :
  (∃ t status, main w args = (t, Return status) ∧
               (status = 0 ∨ status = 1 ∨ status = 2)) ∧
  ((main w args).2 = Return 0
   ↔ ∃ resp_map, pipeline_succeeds w args resp_map) ∧
  ((main w args).2 = Return 2
   ↔ ∃ e, pipeline_fails w args e ∧ recognised e) ∧
  ((main w args).2 = Return 1
   ↔ ∃ e, pipeline_fails w args e ∧ ¬ recognised e).
Proof.
  destruct (pipeline_outcome w args) as [[resp_map Hok] | [e He]].
  - pose proof (main_status_of_success _ _ _ Hok) as Hstatus.
    assert (∀ e, ¬ pipeline_fails w args e) as Hnofail.
    { intros e He. by apply (pipeline_fails_or_succeeds _ _ _ resp_map He). }
    split_and!.
    + destruct (main w args) as [t r]. simpl in Hstatus. subst r.
      eexists _, _. split; [reflexivity | auto].
    + split; [|done]. intros _. by exists resp_map.
    + rewrite Hstatus. split; [done | by intros (e & ?%Hnofail & _)].
    + rewrite Hstatus. split; [done | by intros (e & ?%Hnofail & _)].
  - pose proof (main_status_of_failure _ _ _ He) as Hstatus.
    assert (∀ e', pipeline_fails w args e' → e' = e) as Hsame
      by (intros e'; by apply pipeline_fails_once).
    pose proof (λ resp_map, pipeline_fails_or_succeeds _ _ _ resp_map He)
      as Hnook.
    destruct (exit_status_values e) as [[Hexit Hrec] | [Hexit Hrec]];
      rewrite Hexit in Hstatus; rewrite Hstatus.
    + split_and!.
      * destruct (main w args) as [t r]. simpl in Hstatus. subst r.
        eexists _, _. split; [reflexivity | auto].
      * split; [done | by intros [? ?%Hnook]].
      * split; [by eauto | done].
      * split; [done|]. by intros (e' & ->%Hsame & ?).
    + split_and!.
      * destruct (main w args) as [t r]. simpl in Hstatus. subst r.
        eexists _, _. split; [reflexivity | auto].
      * split; [done | by intros [? ?%Hnook]].
      * split; [done|]. by intros (e' & ->%Hsame & ?).
      * split; [by eauto | done].
Qed.

Lemma main_trace w args :
  (main w args).1 =
  match load_json w (input args) ≫= filter_public with
  | Raise _ => []
  | Return payload =>
      HttpPost (rstrip "/" (url args) +:+ "/service/generate") payload
        [("Content-Type", "application/json")] (timeout args)
        (negb (insecure args))
      :: match (post_generate w (url args) payload (negb (insecure args))
                  (timeout args)).2 with
         | Return resp_map =>
             Print <$> (print_run w (extract_valid_keys resp_map)).1
         | Raise _ => []
         end
  end.
Proof.
  rewrite main_run. unfold mbind, result_mbind.
  destruct (load_json w (input args)) as [raw|e]; [|done].
  destruct (filter_public raw) as [payload|e]; [|done].
  rewrite post_generate_run. cbn zeta. cbn [snd].
  by destruct (match requests_post w _ _ _ _ _ with
               | Return _ => _ | Raise _ => _ end).
Qed.





(** X16.  What main posts.  It posts at most once; a POST means that the
    input was loaded and had a supported shape, its body is the filtered
    input, its address the base without trailing separators followed by
    "/service/generate", its timeout the one given, and certificates are
    verified unless --insecure was given. *)
Theorem main_posts_filtered_input w args url payload headers timeout verify
    (Hposted : HttpPost url payload headers timeout verify ∈ (main w args).1) :
  (∃ raw, load_json w (input args) = Return raw ∧
          filter_public raw = Return payload) ∧
  url = (rstrip "/" (json_validator.url args) +:+ "/service/generate")%string ∧
  headers = [("Content-Type", "application/json")] ∧
  timeout = json_validator.timeout args ∧
  verify = negb (insecure args) ∧
  (length (filter (λ ev, is_post ev) (main w args).1) ≤ 1)%nat.
Proof.
  rewrite main_trace in Hposted |- *. unfold mbind, result_mbind in *.
  destruct (load_json w (input args)) as [raw|e] eqn:Hload;
    [|by apply elem_of_nil in Hposted].
  destruct (filter_public raw) as [payload'|e] eqn:Hfilter;
    [|by apply elem_of_nil in Hposted].
  assert (∀ keys : list string,
            filter (λ ev, is_post ev) (Print <$> keys) = []) as Hprints.
  { induction keys as [|k keys IH]; [done|]. csimpl.
    by rewrite filter_cons_False by (simpl; by intros []). }
  rewrite filter_cons_True by done.
  apply elem_of_cons in Hposted as [[= -> -> -> -> ->] | Hposted].
  - split_and!; [by exists raw | done.. |].
    destruct (post_generate _ _ _ _ _).2; by rewrite ?Hprints.
  - destruct (post_generate _ _ _ _ _).2;
      [|by apply elem_of_nil in Hposted].
    by apply list_elem_of_fmap in Hposted as (k & [=] & _).
Qed.

Lemma main_posts_filtered_input_witness :
  HttpPost "https://example.com/service/generate"
    (PyList [PyDict [("a", PyInt 1)]])
    [("Content-Type", "application/json")] 10 true
  ∈ (main world_scenario sample_args).1 ∧
  ∃ raw, load_json world_scenario (input sample_args) = Return raw ∧
         filter_public raw = Return (PyList [PyDict [("a", PyInt 1)]]).
Proof.
  assert (HttpPost "https://example.com/service/generate"
            (PyList [PyDict [("a", PyInt 1)]])
            [("Content-Type", "application/json")] 10 true
          ∈ (main world_scenario sample_args).1) as Hposted
    by (vm_compute; left).
  split; [exact Hposted|].
  exact (proj1 (main_posts_filtered_input world_scenario sample_args
                  _ _ _ _ _ Hposted)).
Defined.

(** ** lambda_handler *)

Import refresh_lambda.

(** The [except] clauses make no call, and what they return has status
    "error". *)
Lemma except_clauses_outcome (e : exn) :
  (except_clauses e).1 = [] ∧
  ∀ v, (except_clauses e).2 = Return v →
       ∃ r, v = PyDict r ∧ dict_lookup "status" r = Some (PyStr "error").
Proof.
  unfold except_clauses. destruct e;
    try (split; [done | intros v [= <-]; by eexists]).
  run_io. unfold mbind, result_mbind, get_method.
  destruct (dict_get "Error" (PyDict []) response);
    (split; [done | intros v [= <-]; by eexists]) || (split; done).
Qed.

Lemma lambda_handler_trace w event context :
  (lambda_handler w event context).1 =
  if truthy (environ_get w "ASG_NAME") then
    Boto3Client "autoscaling" (client_kwargs_of w)
    :: match boto3_client w "autoscaling" (client_kwargs_of w) with
       | Return _ => [StartInstanceRefresh (client_of w) (refresh_request w)]
       | Raise _ => []
       end
  else [].
Proof.
  rewrite lambda_handler_run.
  destruct (truthy (environ_get w "ASG_NAME")); [|done]. cbn zeta.
  destruct (boto3_client w _ _) as [[]|e].
  - destruct (start_instance_refresh w _ _) as [resp|e]; [done|].
    simpl. by rewrite (proj1 (except_clauses_outcome e)).
  - simpl. by rewrite (proj1 (except_clauses_outcome e)).
Qed.

Lemma environ_get_set w name :
  truthy (environ_get w name) = true
  ↔ ∃ s, environ w !! name = Some s ∧ s ≠ "" ∧ environ_get w name = PyStr s.
Proof.
  unfold environ_get. destruct (environ w !! name) as [s|]; simpl.
  - rewrite negb_true_iff, bool_decide_eq_false. split.
    + intros Hs. by exists s.
    + by intros (s' & [= <-] & Hs & _).
  - split; [done | by intros (s & [=] & _)].
Qed.

(** X17.  What the handler asks of the provider.  It sends at most one
    request; a request it sends is a rolling refresh, with a minimum of 90
    percent healthy and a warm-up of 300, of exactly the group that
    ASG_NAME names, through a client of the autoscaling service that was
    built without error. *)
Theorem lambda_handler_request w event context (c : client) (kwargs : dict)
    (Hsent : StartInstanceRefresh c kwargs
             ∈ (lambda_handler w event context).1) :
  (∃ asg, environ w !! "ASG_NAME" = Some asg ∧ asg ≠ "" ∧
          kwargs = rolling_refresh_of asg) ∧
  service_name c = "autoscaling" ∧
  boto3_client w "autoscaling" (client_kwargs c) = Return tt ∧
  (length (filter (λ c, is_request c) (lambda_handler w event context).1)
   ≤ 1)%nat.
Proof.
  rewrite lambda_handler_trace in Hsent |- *.
  destruct (truthy (environ_get w "ASG_NAME")) eqn:Hasg;
    [|by apply elem_of_nil in Hsent].
  apply environ_get_set in Hasg as (asg & Hasg & Hne & Hget).
  apply elem_of_cons in Hsent as [[=] | Hsent].
  destruct (boto3_client w "autoscaling" (client_kwargs_of w))
    as [[]|e] eqn:Hclient; [|by apply elem_of_nil in Hsent].
  apply list_elem_of_singleton in Hsent as [= -> ->].
  split_and!; [|done..].
  exists asg. split_and!; [done..|].
  unfold refresh_request, rolling_refresh_of. by rewrite Hget.
Qed.

Lemma lambda_handler_request_witness :
  (∃ asg, environ sdk_without_id !! "ASG_NAME" = Some asg ∧ asg ≠ "" ∧
          rolling_refresh_of "web-asg" = rolling_refresh_of asg).
Proof.
  assert (StartInstanceRefresh
            {| service_name := "autoscaling"; client_kwargs := [] |}
            (rolling_refresh_of "web-asg")
          ∈ (lambda_handler sdk_without_id PyNone PyNone).1) as Hsent
    by (vm_compute; right; left).
  exact (proj1 (lambda_handler_request sdk_without_id PyNone PyNone _ _
                  Hsent)).
Defined.

(** X18.  How the client is built.  The handler builds a client of the
    autoscaling service only, and only when ASG_NAME is set; it passes
    region_name when AWS_REGION is set and not empty, and no argument at
    all otherwise, leaving the region to the SDK's own configuration. *)
Theorem lambda_handler_client w event context (service : string)
    (kwargs : dict)
    (Hbuilt : Boto3Client service kwargs
              ∈ (lambda_handler w event context).1) :
  service = "autoscaling" ∧
  ¬ group_unset w ∧
  ((region_unset w ∧ kwargs = []) ∨
   (∃ region, environ w !! "AWS_REGION" = Some region ∧ region ≠ "" ∧
              kwargs = [("region_name", PyStr region)])).
Proof.
  rewrite lambda_handler_trace in Hbuilt.
  destruct (truthy (environ_get w "ASG_NAME")) eqn:Hasg;
    [|by apply elem_of_nil in Hbuilt].
  assert (¬ group_unset w) as Hgroup.
  { intros Hunset%environ_get_truthy. congruence. }
  assert (kwargs = client_kwargs_of w ∧ service = "autoscaling") as [-> ->].
  { apply elem_of_cons in Hbuilt as [[= -> ->] | Hbuilt]; [done|].
    destruct (boto3_client w _ _);
      [by apply list_elem_of_singleton in Hbuilt
      | by apply elem_of_nil in Hbuilt]. }
  split_and!; [done..|]. unfold client_kwargs_of.
  destruct (truthy (environ_get w "AWS_REGION")) eqn:Hregion.
  - right. apply environ_get_set in Hregion as (region & ? & ? & ->).
    by exists region.
  - left. by apply environ_get_truthy in Hregion.
Qed.

Lemma lambda_handler_client_witness :
  ∃ region, environ sdk_with_id !! "AWS_REGION" = Some region ∧
            [("region_name", PyStr "eu-west-1")]
            = [("region_name", PyStr region)].
Proof.
  assert (Boto3Client "autoscaling" [("region_name", PyStr "eu-west-1")]
          ∈ (lambda_handler sdk_with_id PyNone PyNone).1) as Hbuilt
    by (vm_compute; left).
  destruct (lambda_handler_client sdk_with_id PyNone PyNone _ _ Hbuilt)
    as (_ & _ & [[_ Hnone] | (region & Hregion & _ & Hkwargs)]).
  - discriminate Hnone.
  - exists region. split; [exact Hregion | exact Hkwargs].
Defined.

(** X19.  The identifier is passed on as the provider gave it.  When the
    response has an "InstanceRefreshId" entry, instance_refresh_id is the
    value of that entry whatever it is, the empty string or None included;
    "unknown" stands in only for a missing entry.  The response itself is
    returned whole under raw_response. *)
Theorem lambda_handler_refresh_id w event context (resp : dict) (id : value)
    (Hgroup : ¬ group_unset w)
    (Hclient : boto3_client w "autoscaling" (client_kwargs_of w) = Return tt)
    (Hrefresh : start_instance_refresh w (client_of w) (refresh_request w)
                = Return resp)
    (Hid : dict_lookup "InstanceRefreshId" resp = Some id) :
  (lambda_handler w event context).2
  = Return (PyDict [("status", PyStr "started");
                    ("instance_refresh_id", id);
                    ("raw_response", PyDict resp)]).
Proof.
  rewrite lambda_handler_run.
  destruct (truthy (environ_get w "ASG_NAME")) eqn:Hasg;
    [|by apply environ_get_truthy in Hasg].
  cbn zeta. rewrite Hclient, Hrefresh. unfold dict_get. rewrite Hid. simpl.
  unfold py_or. by destruct (truthy id).
Qed.

Lemma lambda_handler_refresh_id_witness :
  (lambda_handler sdk_with_empty_id PyNone PyNone).2
  = Return (PyDict [("status", PyStr "started");
                    ("instance_refresh_id", PyStr "");
                    ("raw_response", PyDict answer_with_empty_id)]).
Proof.
  assert (¬ group_unset sdk_with_empty_id) as Hgroup
    by (intros [H|H]; by vm_compute in H).
  exact (lambda_handler_refresh_id sdk_with_empty_id PyNone PyNone
           answer_with_empty_id (PyStr "") Hgroup eq_refl eq_refl eq_refl).
Defined.

(** X20.  Status "started" is not reported by mistake: a result with that
    status means that ASG_NAME was set, the client was built, and the
    provider call returned the very response found under raw_response. *)
Theorem lambda_handler_started w event context (r : dict)
    (Hresult : (lambda_handler w event context).2 = Return (PyDict r))
    (Hstarted : dict_lookup "status" r = Some (PyStr "started")) :
  ¬ group_unset w ∧
  boto3_client w "autoscaling" (client_kwargs_of w) = Return tt ∧
  ∃ resp, start_instance_refresh w (client_of w) (refresh_request w)
          = Return resp ∧
          dict_lookup "raw_response" r = Some (PyDict resp).
Proof.
  rewrite lambda_handler_run in Hresult.
  destruct (truthy (environ_get w "ASG_NAME")) eqn:Hasg.
  - assert (¬ group_unset w) as Hgroup.
    { intros Hunset%environ_get_truthy. congruence. }
    cbn zeta in Hresult.
    destruct (boto3_client w "autoscaling" (client_kwargs_of w))
      as [[]|e] eqn:Hclient.
    + destruct (start_instance_refresh w (client_of w) (refresh_request w))
        as [resp|e] eqn:Hrefresh.
      * simpl in Hresult. injection Hresult as <-.
        split_and!; [done..|]. by exists resp.
      * simpl in Hresult.
        apply (proj2 (except_clauses_outcome e)) in Hresult
          as (r' & [= <-] & Hstatus). congruence.
    + simpl in Hresult.
      apply (proj2 (except_clauses_outcome e)) in Hresult
        as (r' & [= <-] & Hstatus). congruence.
  - simpl in Hresult. injection Hresult as <-. discriminate Hstarted.
Qed.

Lemma lambda_handler_started_witness :
  ∃ resp, start_instance_refresh sdk_with_id (client_of sdk_with_id)
            (refresh_request sdk_with_id) = Return resp ∧
          resp = answer_with_id.
Proof.
  destruct (lambda_handler_started sdk_with_id PyNone PyNone
              [("status", PyStr "started");
               ("instance_refresh_id",
                PyStr "08b91cf7-8fa6-48af-b6a6-d227f40f1b9b");
               ("raw_response", PyDict answer_with_id)]
              eq_refl eq_refl) as (_ & _ & resp & Hresp & Hraw).
  exists resp. split; [exact Hresp|]. by injection Hraw as <-.
Defined.

(** ** From the input to the wire *)

Import json_validator.

Lemma dict_setitem_Forall (Q : value → Prop) (k : string) (v : value)
    (d : dict) :
  Q v → Forall (λ kv, Q kv.2) d → Forall (λ kv, Q kv.2) (dict_setitem k v d).
Proof.
  intros Hv. induction 1 as [|[k' v'] d Hkv Hd IH]; simpl.
  - by repeat constructor.
  - case_decide; constructor; auto.
Qed.

Lemma dict_comprehension_Forall (Q : value → Prop) (items : dict) :
  Forall (λ kv, Q kv.2) items →
  Forall (λ kv, Q kv.2) (dict_comprehension items).
Proof.
  unfold dict_comprehension.
  assert (∀ acc, Forall (λ kv, Q kv.2) acc → Forall (λ kv, Q kv.2) items →
                 Forall (λ kv, Q kv.2)
                   (fold_left (λ acc kv, dict_setitem kv.1 kv.2 acc) items acc))
    as Hfold.
  { induction items as [|[k v] items IH]; intros acc Hacc Hitems; [done|].
    apply Forall_cons in Hitems as [Hv Hitems]. simpl.
    apply IH; [by apply dict_setitem_Forall | done]. }
  intros Hitems. by apply Hfold.
Qed.

Lemma filter_public_output (data payload : value) :
  filter_public data = Return payload →
  (∃ l, payload = PyList l ∧ Forall public_entry l) ∨
  (∃ d, payload = PyDict d ∧ Forall (λ kv, public_entry kv.2) d).
Proof.
  destruct data as [| | | | |l|d]; try done; intros [= <-].
  - left. eexists. split; [done|].
    apply Forall_forall. intros item [Hitem _]%list_elem_of_filter.
    by apply is_public_iff.
  - right. eexists. split; [done|].
    apply (dict_comprehension_Forall public_entry).
    apply Forall_forall. intros kv [Hkv _]%list_elem_of_filter.
    by apply is_public_iff.
Qed.

(** X21.  Nothing flagged private leaves the process.  Whatever main
    posts is a list or a dict, and every entry of it is a dict whose
    "private" entry is absent or falsy; an input of another shape is never
    posted. *)
Theorem main_never_posts_private w args url payload headers timeout verify
    (Hposted : HttpPost url payload headers timeout verify ∈ (main w args).1) :
  (∃ l, payload = PyList l ∧ Forall public_entry l) ∨
  (∃ d, payload = PyDict d ∧ Forall (λ kv, public_entry kv.2) d).
Proof.
  rewrite main_trace in Hposted. unfold mbind, result_mbind in Hposted.
  destruct (load_json w (input args)) as [raw|e];
    [|by apply elem_of_nil in Hposted].
  destruct (filter_public raw) as [payload'|e] eqn:Hfilter;
    [|by apply elem_of_nil in Hposted].
  apply elem_of_cons in Hposted as [[= -> -> -> -> ->] | Hposted].
  - by eapply filter_public_output.
  - destruct (post_generate _ _ _ _ _).2;
      [|by apply elem_of_nil in Hposted].
    by apply list_elem_of_fmap in Hposted as (k & [=] & _).
Qed.

Lemma main_never_posts_private_witness :
  (∃ l, PyList [PyDict [("a", PyInt 1)]] = PyList l ∧ Forall public_entry l) ∨
  (∃ d, PyList [PyDict [("a", PyInt 1)]] = PyDict d ∧
        Forall (λ kv, public_entry kv.2) d).
Proof.
  apply (main_never_posts_private world_scenario sample_args
           "https://example.com/service/generate"
           (PyList [PyDict [("a", PyInt 1)]])
           [("Content-Type", "application/json")] 10 true).
  vm_compute. left.
Defined.
